(** * HealthyCity Real-Time API (main.py): shallow embedding and properties

    The service resolves a city name to coordinates, asks Google Earth
    Engine for a regional mean (vegetation index or surface temperature)
    and shapes a JSON reply.  Python values are modelled as follows:
    - [str] as the [string] of its UTF-8 bytes,
    - [float] as Rocq's binary64 [float], so arithmetic and rounding are
      those of CPython,
    - exceptions as an error monad over an explicit world (network log and
      random generator state),
    - the external parties (geocoding service, Earth Engine, the [random]
      generator's bits) as fields of an environment record. *)

Set Warnings "-inexact-float,-register-all".
From Stdlib Require Import ZArith String Ascii List Bool Floats Lia.
From Stdlib Require Import DecimalString.
From stdpp Require Import gmap strings.
Import ListNotations.
Open Scope Z_scope.
Open Scope string_scope.

(** ** Python strings *)

Module PyStr.

Definition is_upper (c : ascii) : bool :=
  let n := nat_of_ascii c in (Nat.leb 65 n) && (Nat.leb n 90).

Definition is_lower (c : ascii) : bool :=
  let n := nat_of_ascii c in (Nat.leb 97 n) && (Nat.leb n 122).

Definition to_lower (c : ascii) : ascii :=
  if is_upper c then ascii_of_nat (nat_of_ascii c + 32) else c.

Definition to_upper (c : ascii) : ascii :=
  if is_lower c then ascii_of_nat (nat_of_ascii c - 32) else c.

(** The letters A to Z lowered, every other byte left alone. *)
Fixpoint lower_ascii (s : string) : string :=
  match s with
  | EmptyString => EmptyString
  | String c r => String (to_lower c) (lower_ascii r)
  end.

(** The Kelvin sign U+212A, bytes E2 84 AA in UTF-8, replaced by "k": it
    is the only code point beyond ASCII whose lower case is ASCII. *)
Fixpoint fold_kelvin (s : string) : string :=
  match s with
  | EmptyString => EmptyString
  | String c1 r1 =>
      match r1 with
      | String c2 (String c3 r3) =>
          if Ascii.eqb c1 "226" && Ascii.eqb c2 "132" && Ascii.eqb c3 "170"
          then String "k" (fold_kelvin r3)
          else String c1 (fold_kelvin r1)
      | _ => String c1 (fold_kelvin r1)
      end
  end.

(** [str.lower()] on UTF-8 text, as far as a comparison with ASCII keys
    can tell: [lower s] is an ASCII string exactly when [s.lower()] is, and
    then they are equal.  Letters beyond ASCII other than the Kelvin sign
    are left alone, where Python lowers them to letters beyond ASCII. *)
Definition lower (s : string) : string := fold_kelvin (lower_ascii s).

(** [str.title()] on ASCII text: a cased character that follows an
    uncased one is upper-cased, every other cased character is lower-cased.
    Bytes beyond ASCII count as uncased, so a name with letters beyond
    ASCII is outside this model. *)
Fixpoint title_from (previous_is_cased : bool) (s : string) : string :=
  match s with
  | EmptyString => EmptyString
  | String c r =>
      String (if previous_is_cased then to_lower c else to_upper c)
             (title_from (is_upper c || is_lower c) r)
  end.

Definition title (s : string) : string := title_from false s.

(** Upper-case the characters of [s] selected by [mask]: every way of
    writing [s] in mixed case is [recase mask s] for some [mask]. *)
Fixpoint recase (mask : list bool) (s : string) : string :=
  match s, mask with
  | String c r, true :: m => String (to_upper c) (recase m r)
  | String c r, false :: m => String c (recase m r)
  | _, _ => s
  end.

(** [needle in hay] *)
Fixpoint contains (needle hay : string) : bool :=
  String.prefix needle hay ||
  match hay with
  | EmptyString => false
  | String _ r => contains needle r
  end.

End PyStr.

(** ** Python floats and the [.Nf] format *)

Module PyFloat.

Definition Z_to_string (n : Z) : string :=
  NilZero.string_of_uint (N.to_uint (Z.to_N n)).

(** [str(n)] for an [int] *)
Definition str_int (n : Z) : string :=
  if Z.ltb n 0 then "-" +:+ Z_to_string (- n) else Z_to_string n.

(** [a / b] rounded to the nearest integer, ties to even ([0 <= a], [0 < b]). *)
Definition div_round_half_even (a b : Z) : Z :=
  let q := a / b in
  match Z.compare (2 * (a mod b)) b with
  | Lt => q
  | Gt => q + 1
  | Eq => if Z.even q then q else q + 1
  end.

Fixpoint zeros (n : nat) : string :=
  match n with O => EmptyString | S k => String "0" (zeros k) end.

(** The digits of [n / 10^d] with exactly [d] decimals. *)
Definition fixed_digits (d : nat) (n : Z) : string :=
  let s := Z_to_string n in
  let s := zeros (S d - String.length s) +:+ s in
  let k := (String.length s - d)%nat in
  if Nat.eqb d 0 then s
  else substring 0 k s +:+ "." +:+ substring k d s.

(** [format(x, '.df')]: the exact binary value [m * 2^e] of [x], correctly
    rounded (ties to even) to [d] decimals, as CPython prints it. *)
Definition format_f (d : nat) (x : float) : string :=
  match Prim2SF x with
  | S754_nan => "nan"
  | S754_infinity s => if s then "-inf" else "inf"
  | S754_zero s => (if s then "-" else "") +:+ fixed_digits d 0
  | S754_finite s m e =>
      let scaled :=
        if Z.leb 0 e
        then Z.pos m * 2 ^ e * 10 ^ Z.of_nat d
        else div_round_half_even (Z.pos m * 10 ^ Z.of_nat d) (2 ^ (- e)) in
      (if s then "-" else "") +:+ fixed_digits d scaled
  end.

End PyFloat.

(** ** Exceptions, JSON values and the request monad *)

(** The exceptions the service distinguishes: FastAPI's [HTTPException],
    the [requests.exceptions.RequestException] family, and any other
    [Exception] with its class name and [str(e)]. *)
Inductive exn : Type :=
| HTTPException (status_code : Z) (detail : string)
| RequestException (what : string)
| PyException (cls : string) (msg : string).

Inductive result (A : Type) : Type :=
| Ok (a : A)
| Raise (e : exn).
Arguments Ok {A} a.
Arguments Raise {A} e.

(** A decoded JSON document, which is also the shape of a reply payload. *)
Inductive json : Type :=
| JNull
| JBool (b : bool)
| JInt (n : Z)
| JNum (x : float)
| JStr (s : string)
| JList (items : list json)
| JDict (fields : list (string * json)).

(** Python truthiness, as [not data] tests it. *)
Definition py_truthy (v : json) : bool :=
  match v with
  | JNull => false
  | JBool b => b
  | JInt n => negb (Z.eqb n 0)
  | JNum x => negb (PrimFloat.eqb x 0)
  | JStr s => negb (String.eqb s "")
  | JList items => match items with [] => false | _ => true end
  | JDict fields => match fields with [] => false | _ => true end
  end.

Fixpoint assoc_get {A : Type} (k : string) (l : list (string * A)) : option A :=
  match l with
  | [] => None
  | (k', v) :: r => if String.eqb k k' then Some v else assoc_get k r
  end.

(** The name [type(v).__name__] of a decoded value. *)
Definition type_name (v : json) : string :=
  match v with
  | JNull => "NoneType"
  | JBool _ => "bool"
  | JInt _ => "int"
  | JNum _ => "float"
  | JStr _ => "str"
  | JList _ => "list"
  | JDict _ => "dict"
  end.

Definition not_subscriptable (v : json) : exn :=
  PyException "TypeError" ("'" +:+ type_name v +:+ "' object is not subscriptable").

(** [v[0]] *)
Definition getitem_0 (v : json) : result json :=
  match v with
  | JList (x :: _) => Ok x
  | JList [] => Raise (PyException "IndexError" "list index out of range")
  | JStr (String c _) => Ok (JStr (String c EmptyString))
  | JStr EmptyString => Raise (PyException "IndexError" "string index out of range")
  | JDict _ => Raise (PyException "KeyError" "0")
  | _ => Raise (not_subscriptable v)
  end.

(** [v[k]] for a string key [k] *)
Definition getitem_key (v : json) (k : string) : result json :=
  match v with
  | JDict fields =>
      match assoc_get k fields with
      | Some x => Ok x
      | None => Raise (PyException "KeyError" ("'" +:+ k +:+ "'"))
      end
  | JList _ =>
      Raise (PyException "TypeError" "list indices must be integers or slices, not str")
  | JStr _ =>
      Raise (PyException "TypeError" "string indices must be integers, not 'str'")
  | _ => Raise (not_subscriptable v)
  end.

(** What [requests.get(url, timeout=10)] can do: raise (connection error,
    timeout, ...), hand back a response with a status code and a JSON
    body, or hand back a response whose body is not JSON, on which
    [json()] raises a [JSONDecodeError] with the message [what]. *)
Inductive get_outcome : Type :=
| GetRaises (what : string)
| GetResponse (status_code : Z) (body : json)
| GetUndecodable (status_code : Z) (what : string).

(** The mutable world of one process: the URLs fetched so far, and the
    number of draws taken from the [random] generator. *)
Record world : Type := World { net_log : list string; rng_draws : N }.

Definition M (A : Type) : Type := world -> result A * world.

Definition ret {A : Type} (a : A) : M A := fun w => (Ok a, w).
Definition raise {A : Type} (e : exn) : M A := fun w => (Raise e, w).
Definition bind {A B : Type} (m : M A) (k : A -> M B) : M B :=
  fun w => match m w with
           | (Ok a, w') => k a w'
           | (Raise e, w') => (Raise e, w')
           end.
Definition lift {A : Type} (r : result A) : M A := fun w => (r, w).

(** [try: m  except ...: h e]; the handler decides which exceptions it
    takes and re-raises the others. *)
Definition try_except {A : Type} (m : M A) (h : exn -> M A) : M A :=
  fun w => match m w with
           | (Raise e, w') => h e w'
           | r => r
           end.

Declare Scope py_scope.
Delimit Scope py_scope with py.
Notation "'let*' x ':=' m 'in' k" := (bind m (fun x => k))
  (at level 10, x binder, k at level 200) : py_scope.
Open Scope py_scope.

(** ** The Earth Engine client objects

    The [ee] client builds a description of a computation; nothing is
    computed until [getInfo()] sends the description to the platform.
    Every constructor below is the object the method of the same name
    returns. *)

Module EE.

Inductive geometry : Type :=
| Geometry_Point (lon lat : json)
| buffer (g : geometry) (distance : Z).

Inductive filter : Type :=
| Filter_lt (name : string) (value : float)
| Filter_date (start_ end_ : string).

Inductive collection : Type :=
| ImageCollection (id : string)
| filterBounds (c : collection) (g : geometry)
| filter_ (c : collection) (f : filter)
| sort (c : collection) (prop : string) (ascending : bool).

Inductive image : Type :=
| median (c : collection)
| first_of (c : collection)
| normalizedDifference (i : image) (bands : list string)
| rename (i : image) (name : string)
| select (i : image) (band : string)
| multiply (i : image) (k : float)
| add (i : image) (k : float)
| subtract (i : image) (k : float).

Inductive reducer : Type :=
| Reducer_mean.

(** [image.reduceRegion(reducer=, geometry=, scale=, maxPixels=)] *)
Record reduceRegion : Type := ReduceRegion {
  rr_image : image;
  rr_reducer : reducer;
  rr_geometry : geometry;
  rr_scale : Z;
  rr_maxPixels : float
}.

(** [ImageCollection.first()] wraps the call in an [ee.Image] object and
    returns that object; it is a Python value that is never [None],
    whatever the collection will turn out to hold on the platform. *)
Definition first (c : collection) : option image := Some (first_of c).

(** The reply of [getInfo()] on a [reduceRegion]: one entry per band, the
    value being [None] when the platform sends [null]. *)
Definition stats : Type := gmap string (option float).

(** [stats.get(key)] *)
Definition stats_get (s : stats) (key : string) : option float :=
  match s !! key with
  | Some v => v
  | None => None
  end.

(** The ways a round trip to the platform ends: an exception of some
    class with its [str(e)], or the decoded reply. *)
Inductive outcome : Type :=
| Fails (cls msg : string)
| Returns (s : stats).

End EE.

(** ** The environment of the service *)

Record Env : Type := {
  (** [os.getenv("OPENWEATHER_API_KEY")] *)
  OPENWEATHER_API_KEY : option string;
  (** the geocoding service, as seen through [requests.get] *)
  net : string -> get_outcome;
  (** Earth Engine, from the first [ee] call of a request to the reply of
      [getInfo()] *)
  ee_getInfo : EE.reduceRegion -> EE.outcome;
  (** the [random] generator: its n-th float in [0,1) and its n-th
      unbounded integer *)
  rand_float : N -> float;
  rand_bits : N -> Z
}.

(** A response: its status code and its body, decoded, or the message of
    the decoding error. *)
Definition requests_get (E : Env) (url : string) : M (Z * (string + json)) :=
  fun w =>
    let w' := World (net_log w ++ [url]) (rng_draws w) in
    match net E url with
    | GetRaises what => (Raise (RequestException what), w')
    | GetResponse status_code body => (Ok (status_code, inr body), w')
    | GetUndecodable status_code what => (Ok (status_code, inl what), w')
    end.

(** [response.raise_for_status()]: an [HTTPError], which is a
    [RequestException], for the 4xx and 5xx codes. *)
Definition raise_for_status (response : Z * (string + json)) : M unit :=
  if Z.leb 400 (fst response) && Z.ltb (fst response) 600
  then raise (RequestException "HTTPError")
  else ret tt.

(** [response.json()]: requests' [JSONDecodeError] is a
    [RequestException]. *)
Definition response_json (response : Z * (string + json)) : M json :=
  match snd response with
  | inr data => ret data
  | inl what => raise (RequestException what)
  end.

Definition getInfo (E : Env) (q : EE.reduceRegion) : M EE.stats :=
  match ee_getInfo E q with
  | EE.Fails cls msg => raise (PyException cls msg)
  | EE.Returns s => ret s
  end.

(** ** Helper functions of main.py *)

Definition known_cities : gmap string (float * float) :=
  list_to_map
    [ ("shimoga", (13.9299%float, 75.5681%float));
      ("challakere", (14.3135%float, 76.6534%float));
      ("mumbai", (19.0760%float, 72.8777%float));
      ("tokyo", (35.6762%float, 139.6503%float));
      ("london", (51.5072%float, (-0.1276)%float));
      ("new york", (40.7128%float, (-74.0060)%float)) ].

(** [not OPENWEATHER_API_KEY] is false *)
Definition api_key_configured (E : Env) : bool :=
  match OPENWEATHER_API_KEY E with
  | Some k => negb (String.eqb k "")
  | None => false
  end.

Definition geocoding_url (E : Env) (city_name : string) : string :=
  "http://api.openweathermap.org/geo/1.0/direct?q=" +:+ city_name
  +:+ "&limit=1&appid=" +:+ default "None" (OPENWEATHER_API_KEY E).

Definition get_city_coords (E : Env) (city_name : string) : M (json * json) :=
  let city_lower := PyStr.lower city_name in
  match known_cities !! city_lower with
  | Some (lat, lon) => ret (JNum lat, JNum lon)
  | None =>
      if negb (api_key_configured E)
      then raise (HTTPException 500 "OpenWeatherMap API key is not configured.")
      else
        try_except
          (let url := geocoding_url E city_name in
           let* response := requests_get E url in
           let* _ := raise_for_status response in
           let* data := response_json response in
           if negb (py_truthy data)
           then raise (HTTPException 404 ("City '" +:+ city_name +:+ "' not found."))
           else
             let* hit := lift (getitem_0 data) in
             let* lat := lift (getitem_key hit "lat") in
             let* hit' := lift (getitem_0 data) in
             let* lon := lift (getitem_key hit' "lon") in
             ret (lat, lon))
          (fun e =>
             match e with
             | RequestException _ =>
                 raise (HTTPException 503 "Geocoding service is unavailable.")
             | _ => raise e
             end)
  end.

(** ** Real satellite data endpoints *)

(** The two handlers that close both endpoints:
    [except HTTPException as e: raise e] and
    [except Exception as e: raise HTTPException(500, ...str(e))]. *)
Definition earth_engine_handler {A : Type} (e : exn) : M A :=
  match e with
  | HTTPException _ _ => raise e
  | RequestException what =>
      raise (HTTPException 500 ("An Earth Engine error occurred: " +:+ what))
  | PyException _ msg =>
      raise (HTTPException 500 ("An Earth Engine error occurred: " +:+ msg))
  end.

(** [point.buffer(5000)] around [ee.Geometry.Point(lon, lat)] *)
Definition area_of_interest (lat lon : json) : EE.geometry :=
  let point := EE.Geometry_Point lon lat in
  EE.buffer point 5000.

(** The Sentinel-2 collection of the vegetation pipeline, before [median()]. *)
Definition green_collection (aoi : EE.geometry) : EE.collection :=
  EE.filter_
    (EE.filter_
       (EE.filterBounds (EE.ImageCollection "COPERNICUS/S2_SR_HARMONIZED") aoi)
       (EE.Filter_lt "CLOUDY_PIXEL_PERCENTAGE" 20))
    (EE.Filter_date "2023-01-01" "2023-12-31").

Definition green_query (lat lon : json) : EE.reduceRegion :=
  let aoi := area_of_interest lat lon in
  let image := EE.median (green_collection aoi) in
  let ndvi := EE.rename (EE.normalizedDifference image ["B8"; "B4"]) "NDVI" in
  EE.ReduceRegion ndvi EE.Reducer_mean aoi 30 1e9.

Definition get_green_cover_real (E : Env) (city : string) : M json :=
  try_except
    (let* '(lat, lon) := get_city_coords E city in
     let* stats := getInfo E (green_query lat lon) in
     let avg_ndvi := EE.stats_get stats "NDVI" in
     match avg_ndvi with
     | None =>
         raise (HTTPException 404 "Could not calculate NDVI for this area.")
     | Some avg_ndvi =>
         let green_cover_percentage := ((avg_ndvi + 1) * 50)%float in
         ret (JDict
                [ ("city", JStr (PyStr.title city));
                  ("location", JDict [("lat", lat); ("lon", lon)]);
                  ("avg_coverage",
                   JStr (PyFloat.format_f 2 green_cover_percentage +:+ "%"));
                  ("avg_ndvi", JStr (PyFloat.format_f 4 avg_ndvi));
                  ("data_source", JStr "Sentinel-2 Satellite") ])
     end)
    earth_engine_handler.

Definition scale_thermal (image : EE.image) : EE.image :=
  let thermal := EE.add (EE.multiply (EE.select image "ST_B10") 0.00341802) 149.0 in
  EE.subtract thermal 273.15.

(** The Landsat 9 collection of the heat pipeline, before [first()]. *)
Definition heat_filtered (aoi : EE.geometry) : EE.collection :=
  EE.filter_
    (EE.filter_
       (EE.filterBounds (EE.ImageCollection "LANDSAT/LC09/C02/T1_L2") aoi)
       (EE.Filter_lt "CLOUD_COVER" 20))
    (EE.Filter_date "2023-01-01" "2023-12-31").

Definition heat_collection (aoi : EE.geometry) : EE.collection :=
  EE.sort (heat_filtered aoi) "system:time_start" false.

Definition heat_query (aoi : EE.geometry) (latest_image : EE.image) : EE.reduceRegion :=
  let lst_celsius := EE.rename (scale_thermal latest_image) "LST_Celsius" in
  EE.ReduceRegion lst_celsius EE.Reducer_mean aoi 30 1e9.

Definition get_heat_map_real (E : Env) (city : string) : M json :=
  try_except
    (let* '(lat, lon) := get_city_coords E city in
     let aoi := area_of_interest lat lon in
     let latest_image := EE.first (heat_collection aoi) in
     match latest_image with
     | None =>
         raise (HTTPException 404
                  "No valid satellite imagery found for the date range.")
     | Some latest_image =>
         let* stats := getInfo E (heat_query aoi latest_image) in
         let avg_temp := EE.stats_get stats "LST_Celsius" in
         match avg_temp with
         | None => raise (HTTPException 404 "Could not calculate temperature.")
         | Some avg_temp =>
             ret (JDict
                    [ ("city", JStr (PyStr.title city));
                      ("location", JDict [("lat", lat); ("lon", lon)]);
                      ("avg_temp", JStr (PyFloat.format_f 2 avg_temp +:+ "°C"));
                      ("data_source", JStr "Landsat 9 Satellite") ])
         end
     end)
    earth_engine_handler.

(** ** Simulated endpoints *)

Definition random_random (E : Env) : M float :=
  fun w => (Ok (rand_float E (rng_draws w)),
            World (net_log w) (N.succ (rng_draws w))).

(** [random._randbelow(n)] *)
Definition randbelow (E : Env) (n : Z) : M Z :=
  fun w => (Ok (rand_bits E (rng_draws w) mod n),
            World (net_log w) (N.succ (rng_draws w))).

(** [random.uniform(a, b)] is [a + (b - a) * random()] *)
Definition random_uniform (E : Env) (a b : float) : M float :=
  let* u := random_random E in ret (a + (b - a) * u)%float.

(** [random.randint(a, b)] is [a + _randbelow(b - a + 1)] *)
Definition random_randint (E : Env) (a b : Z) : M Z :=
  let* k := randbelow E (b - a + 1) in ret (a + k).

(** [random.choice(seq)] is [seq[_randbelow(len(seq))]] *)
Definition random_choice (E : Env) (seq : list string) : M string :=
  let* k := randbelow E (Z.of_nat (length seq)) in
  ret (nth (Z.to_nat k) seq "").

Definition get_city_overview (E : Env) (city : string) : M json :=
  let* _ := get_city_coords E city in
  let* temperature := random_uniform E 25.0 32.0 in
  let* green_cover := random_randint E 40 65 in
  let* flood_risk := random_randint E 5 25 in
  let* aqi := random_randint E 40 90 in
  let* risk_level := random_choice E ["Low Risk"; "Medium Risk"] in
  ret (JDict
         [ ("city", JStr (PyStr.title city));
           ("country", JStr "Global");
           ("temperature", JStr (PyFloat.format_f 1 temperature +:+ "°C"));
           ("green_cover", JStr (PyFloat.str_int green_cover +:+ "%"));
           ("flood_risk", JStr (PyFloat.str_int flood_risk +:+ "/100"));
           ("aqi", JInt aqi);
           ("risk_level", JStr risk_level) ]).

Definition get_flood_risk (E : Env) (city : string) : M json :=
  let* '(lat, lon) := get_city_coords E city in
  let* risk_score := random_randint E 10 40 in
  let* high_risk_zones := random_randint E 1 10 in
  let* avg_elevation := random_randint E 40 60 in
  ret (JDict
         [ ("city", JStr (PyStr.title city));
           ("location", JDict [("lat", lat); ("lon", lon)]);
           ("risk_score", JStr (PyFloat.str_int risk_score +:+ "/100"));
           ("high_risk_zones", JInt high_risk_zones);
           ("avg_elevation", JStr (PyFloat.str_int avg_elevation +:+ "m")) ]).

Definition get_air_quality (E : Env) (city : string) : M json :=
  let* '(lat, lon) := get_city_coords E city in
  let* avg_aqi := random_randint E 30 150 in
  let* unhealthy_sensors := random_randint E 0 5 in
  let* main_pollutant := random_choice E ["PM2.5"; "O3"; "NO2"] in
  ret (JDict
         [ ("city", JStr (PyStr.title city));
           ("location", JDict [("lat", lat); ("lon", lon)]);
           ("avg_aqi", JInt avg_aqi);
           ("unhealthy_sensors", JInt unhealthy_sensors);
           ("main_pollutant", JStr main_pollutant) ]).

Definition get_report_card (E : Env) (city : string) : M json :=
  let* '(lat, lon) := get_city_coords E city in
  let* overall_score := random_randint E 60 85 in
  ret (JDict
         [ ("city", JStr (PyStr.title city));
           ("location", JDict [("lat", lat); ("lon", lon)]);
           ("overall_score", JInt overall_score);
           ("summary", JStr "This is a simulated summary.");
           ("grades",
            JDict [ ("Air Quality", JDict [("grade", JStr "C+")]);
                    ("Green Cover", JDict [("grade", JStr "A-")]) ]) ]).

Definition get_simulation (E : Env) (city intervention scale : string) : M json :=
  ret (JDict
         [ ("impact",
            JDict [ ("temperature",
                     JDict [("current", JStr "25.1°C"); ("change", JStr "-2.5°C")]);
                    ("aqi", JDict [("current", JInt 83); ("change", JInt (-20))]) ]);
           ("benefits",
            JDict [ ("co2_absorbed", JStr "150 Tons/year");
                    ("investment", JStr "$500K") ]) ]).

(** ** A reference semantics for the platform side

    What Earth Engine does with the descriptions above, for the operations
    of the heat pipeline: filtering and sorting a stored collection, taking
    its first image, band arithmetic, and the regional mean.  An image is
    known by its acquisition time, its numeric properties, the regions its
    footprint meets, and the unmasked samples of each band over a region at
    a scale. *)

Module Platform.

Record image : Type := Image {
  system_time_start : Z;
  properties : gmap string float;
  footprint : EE.geometry -> bool;
  samples : EE.geometry -> Z -> list (string * list float)
}.

Definition catalog : Type := string -> list image.

Definition digit_of (c : ascii) : option Z :=
  let n := nat_of_ascii c in
  if Nat.leb 48 n && Nat.leb n 57 then Some (Z.of_nat (n - 48)) else None.

Fixpoint number_of (acc : Z) (s : string) : option Z :=
  match s with
  | EmptyString => Some acc
  | String c r =>
      match digit_of c with
      | Some d => number_of (10 * acc + d) r
      | None => None
      end
  end.

(** Days from 1970-01-01 to the given day of the proleptic Gregorian calendar. *)
Definition days_from_civil (y m d : Z) : Z :=
  let y := if Z.leb m 2 then y - 1 else y in
  let era := y / 400 in
  let yoe := y - era * 400 in
  let doy := (153 * ((m + 9) mod 12) + 2) / 5 + d - 1 in
  let doe := yoe * 365 + yoe / 4 - yoe / 100 + doy in
  era * 146097 + doe - 719468.

(** Milliseconds since the epoch of a ['YYYY-MM-DD'] date at 00:00 UTC. *)
Definition date_millis (s : string) : option Z :=
  if Nat.eqb (String.length s) 10
     && String.eqb (substring 4 1 s) "-" && String.eqb (substring 7 1 s) "-"
  then
    match number_of 0 (substring 0 4 s),
          number_of 0 (substring 5 2 s),
          number_of 0 (substring 8 2 s) with
    | Some y, Some m, Some d => Some (days_from_civil y m d * 86400000)
    | _, _, _ => None
    end
  else None.

(** [ee.Filter.lt] compares a numeric property; [ee.Filter.date] keeps the
    images acquired in [[start, end)]. *)
Definition filter_holds (f : EE.filter) (i : image) : bool :=
  match f with
  | EE.Filter_lt name value =>
      match properties i !! name with
      | Some x => PrimFloat.ltb x value
      | None => false
      end
  | EE.Filter_date start_ end_ =>
      match date_millis start_, date_millis end_ with
      | Some a, Some b =>
          Z.leb a (system_time_start i) && Z.ltb (system_time_start i) b
      | _, _ => false
      end
  end.

(** The order [sort(prop)] uses; images without the property come first. *)
Definition image_leb (prop : string) (a b : image) : bool :=
  if String.eqb prop "system:time_start"
  then Z.leb (system_time_start a) (system_time_start b)
  else
    match properties a !! prop, properties b !! prop with
    | Some x, Some y => PrimFloat.leb x y
    | None, _ => true
    | Some _, None => false
    end.

Fixpoint insert_sorted (leb : image -> image -> bool) (x : image) (l : list image)
  : list image :=
  match l with
  | [] => [x]
  | y :: r => if leb x y then x :: y :: r else y :: insert_sorted leb x r
  end.

Definition sort_images (leb : image -> image -> bool) (l : list image) : list image :=
  fold_right (insert_sorted leb) [] l.

Fixpoint eval_collection (cat : catalog) (c : EE.collection) : list image :=
  match c with
  | EE.ImageCollection id => cat id
  | EE.filterBounds c g =>
      List.filter (fun i => footprint i g) (eval_collection cat c)
  | EE.filter_ c f => List.filter (filter_holds f) (eval_collection cat c)
  | EE.sort c prop ascending =>
      sort_images
        (if ascending then image_leb prop else fun a b => image_leb prop b a)
        (eval_collection cat c)
  end.

(** [Collection.first]: the first image, or [null] for an empty collection. *)
Definition first_image (cat : catalog) (c : EE.collection) : option image :=
  head (eval_collection cat c).

Definition raster : Type := list (string * list float).

Definition pointwise (f : float -> float) (r : raster) : raster :=
  map (fun bp => (fst bp, map f (snd bp))) r.

Definition arithmetic (name : string) (f : float -> float)
    (v : string + option raster) : string + option raster :=
  match v with
  | inl msg => inl msg
  | inr None => inl ("Image." +:+ name +:+ ": Parameter 'image1' is required.")
  | inr (Some r) => inr (Some (pointwise f r))
  end.

(** The value of an image description over region [g] at [scale]: an
    error message, [null], or the samples of its bands.  The composites of
    the vegetation pipeline ([median], [normalizedDifference]) are not
    given a meaning here. *)
Fixpoint eval_image (cat : catalog) (g : EE.geometry) (scale : Z) (e : EE.image)
  : string + option raster :=
  match e with
  | EE.first_of c =>
      inr (option_map (fun i => samples i g scale) (first_image cat c))
  | EE.select i band =>
      match eval_image cat g scale i with
      | inl msg => inl msg
      | inr None => inl "Image.select: Parameter 'input' is required."
      | inr (Some r) =>
          match assoc_get band r with
          | Some px => inr (Some [(band, px)])
          | None =>
              inl ("Image.select: Pattern '" +:+ band +:+ "' did not match any bands.")
          end
      end
  | EE.multiply i k => arithmetic "multiply" (fun x => (x * k)%float) (eval_image cat g scale i)
  | EE.add i k => arithmetic "add" (fun x => (x + k)%float) (eval_image cat g scale i)
  | EE.subtract i k => arithmetic "subtract" (fun x => (x - k)%float) (eval_image cat g scale i)
  | EE.rename i name =>
      match eval_image cat g scale i with
      | inl msg => inl msg
      | inr None => inl "Image.rename: Parameter 'input' is required."
      | inr (Some [(_, px)]) => inr (Some [(name, px)])
      | inr (Some _) => inl "Image.rename: The number of names must match the number of bands."
      end
  | EE.median _ => inl "Collection.median: not modelled."
  | EE.normalizedDifference _ _ => inl "Image.normalizedDifference: not modelled."
  end.

(** [ee.Reducer.mean()] over the samples; [null] when there is none. *)
Definition mean (px : list float) : option float :=
  match px with
  | [] => None
  | _ =>
      Some (fold_left PrimFloat.add px 0 /
            PrimFloat.of_uint63 (Uint63.of_Z (Z.of_nat (length px))))%float
  end.

(** [reduceRegion(...).getInfo()] *)
Definition run (cat : catalog) (q : EE.reduceRegion) : EE.outcome :=
  match eval_image cat (EE.rr_geometry q) (EE.rr_scale q) (EE.rr_image q) with
  | inl msg => EE.Fails "EEException" msg
  | inr None => EE.Fails "EEException" "Image.reduceRegion: Parameter 'image' is required."
  | inr (Some r) =>
      EE.Returns (list_to_map (map (fun bp => (fst bp, mean (snd bp))) r))
  end.

End Platform.

(** ** Concrete environments *)

Definition w0 : world := World [] 0.

(** An environment built from a key, a geocoding service and a platform;
    the generator yields 0.5 and counts up. *)
Definition make_env (key : option string) (service : string -> get_outcome)
    (platform : EE.reduceRegion -> EE.outcome) : Env :=
  {| OPENWEATHER_API_KEY := key;
     net := service;
     ee_getInfo := platform;
     rand_float := fun _ => 0.5%float;
     rand_bits := fun n => Z.of_N n |}.

Definition service_down : string -> get_outcome :=
  fun _ => GetRaises "ConnectionError".

Definition service_replies (status_code : Z) (body : json) : string -> get_outcome :=
  fun _ => GetResponse status_code body.

(** A service that answers 200 with a page that is not JSON. *)
Definition service_garbled : string -> get_outcome :=
  fun _ => GetUndecodable 200 "Expecting value: line 1 column 1 (char 0)".

(** A platform that answers every reduction with the given band value. *)
Definition platform_returns (band : string) (v : option float)
  : EE.reduceRegion -> EE.outcome :=
  fun _ => EE.Returns {[ band := v ]}.

Definition platform_fails (msg : string) : EE.reduceRegion -> EE.outcome :=
  fun _ => EE.Fails "EEException" msg.

(** A Landsat scene acquired at [t] with cloud cover [cloud], covering
    every region, whose thermal band has the samples [px]. *)
Definition scene (t : Z) (cloud : float) (px : list float) : Platform.image :=
  {| Platform.system_time_start := t;
     Platform.properties := {[ "CLOUD_COVER" := cloud ]};
     Platform.footprint := fun _ => true;
     Platform.samples := fun _ _ => [("ST_B10", px); ("QA_PIXEL", px)] |}.

Definition landsat_only (scenes : list Platform.image) : Platform.catalog :=
  fun id => if String.eqb id "LANDSAT/LC09/C02/T1_L2" then scenes else [].

(** Three scenes of 2023: a clear one in March, a cloudy one in November
    and a clear one in August. *)
Definition sample_scenes : list Platform.image :=
  [ scene 1678000000000 10 [100%float];
    scene 1700000000000 30 [7%float];
    scene 1692000000000 3 [40000%float; 50000%float] ].

Definition tokyo_area : EE.geometry :=
  area_of_interest (JNum 35.6762) (JNum 139.6503).

(** Two scenes of 2023, both too cloudy for the 20% threshold. *)
Definition cloudy_scenes : list Platform.image :=
  [ scene 1678000000000 45 [41000%float];
    scene 1692000000000 20 [42000%float] ].

(** ** Reading descriptions and replies *)

(** [payload[key]] of a reply *)
Definition payload_field (key : string) (payload : json) : option json :=
  match payload with
  | JDict fields => assoc_get key fields
  | _ => None
  end.







(** The head of a list of images is at least as recent as every image of
    the list. *)
Definition head_is_newest (l : list Platform.image) : Prop :=
  forall m, head l = Some m ->
            forall j, In j l ->
                      Platform.system_time_start j <= Platform.system_time_start m.

(** A 4xx or 5xx status, on which [raise_for_status] raises. *)
Definition error_status (status_code : Z) : bool :=
  Z.leb 400 status_code && Z.ltb status_code 600.

(** [data[0]["lat"], data[0]["lon"]] *)
Definition coords_of_reply (data : json) : result (json * json) :=
  match getitem_0 data with
  | Raise e => Raise e
  | Ok hit =>
      match getitem_key hit "lat" with
      | Raise e => Raise e
      | Ok lat =>
          match getitem_key hit "lon" with
          | Raise e => Raise e
          | Ok lon => Ok (lat, lon)
          end
      end
  end.

(** The reading of the resolver's contract under which a city outside the
    table can only fail with NotFound or ServiceUnavailable. *)
Definition fails_only_with_404_or_503 : Prop :=
  forall (E : Env) (city_name : string) (w w' : world) (e : exn),
    known_cities !! PyStr.lower city_name = None ->
    get_city_coords E city_name w = (Raise e, w') ->
    exists detail, e = HTTPException 404 detail \/ e = HTTPException 503 detail.

(** The reading of the simulator's contract under which two calls with the
    same parameters can return different payloads. *)
Definition simulation_can_differ : Prop :=
  exists (E : Env) (city intervention scale : string) (w1 w2 : world),
    fst (get_simulation E city intervention scale w1)
    <> fst (get_simulation E city intervention scale w2).

(** The payload every simulation returns. *)
Definition simulation_payload : json :=
  JDict
    [ ("impact",
       JDict [ ("temperature",
                JDict [("current", JStr "25.1°C"); ("change", JStr "-2.5°C")]);
               ("aqi", JDict [("current", JInt 83); ("change", JInt (-20))]) ]);
      ("benefits",
       JDict [ ("co2_absorbed", JStr "150 Tons/year");
               ("investment", JStr "$500K") ]) ].

(** ** The dashboard (app.py)

    The dashboard is a Streamlit script: it fetches a reply from the
    service with [requests] and emits widgets.  A run is modelled as a
    state transformer over the widgets emitted and the URLs requested so
    far; the session state is read only by the functions below and is a
    parameter. *)

Module Dashboard.

(** A reply as [requests] hands it over; [body] is the decoded JSON, or
    the message of the [JSONDecodeError] that [json()] raises. *)
Record response : Type := Response {
  status_code : Z;
  reason : string;
  url : string;
  body : string + json
}.

(** The exceptions the dashboard tells apart: the [Timeout] family, any
    other [RequestException] with its [str(e)] and its [e.response], and
    any other Python exception. *)
Inductive exc : Type :=
| Timeout (msg : string)
| RequestError (msg : string) (resp : option response)
| PyError (cls msg : string).

Inductive outcome (A : Type) : Type :=
| Done (a : A)
| Fail (e : exc).
Arguments Done {A} a.
Arguments Fail {A} e.

(** What [requests.get(url, timeout=180)] can do. *)
Inductive get_result : Type :=
| GetTimeout (msg : string)
| GetFails (msg : string) (resp : option response)
| GetReplies (r : response).

Record marker : Type := Marker {
  marker_location : json * json;
  popup : string;
  tooltip : string
}.

Record folium_map : Type := Map {
  location : json * json;
  zoom_start : Z;
  tiles : string;
  markers : list marker
}.

Inductive widget : Type :=
| st_header (text : string)
| st_markdown (text : string)
| st_metric (label : string) (value : json)
| st_info (text : string)
| st_warning (text : string)
| st_error (text : string)
| st_spinner (text : string)
(** [st.columns(spec)] with the relative widths; [st.columns(2)] is two
    equal columns *)
| st_columns (weights : list Z)
| st_folium (m : folium_map) (width height : Z)
| in_column (i : nat) (w : widget).

Record Env : Type := {
  (** the service, as seen through [requests.get] *)
  backend : string -> get_result;
  (** [str(v)] for a float, a list or a dict *)
  str_of : json -> string;
  (** whether [float(s)] accepts the string [s] *)
  parses_as_float : string -> bool
}.

Record ui : Type := UI { widgets : list widget; requested : list string }.

Definition Run (A : Type) : Type := ui -> outcome A * ui.

Definition ret {A : Type} (a : A) : Run A := fun u => (Done a, u).
Definition raise {A : Type} (e : exc) : Run A := fun u => (Fail e, u).
Definition bind {A B : Type} (m : Run A) (k : A -> Run B) : Run B :=
  fun u => match m u with
           | (Done a, u') => k a u'
           | (Fail e, u') => (Fail e, u')
           end.
Definition try_except {A : Type} (m : Run A) (h : exc -> Run A) : Run A :=
  fun u => match m u with
           | (Fail e, u') => h e u'
           | r => r
           end.
Definition emit (w : widget) : Run unit :=
  fun u => (Done tt, UI (widgets u ++ [w]) (requested u)).

(** [with cols[i]: m]: what [m] emits lands in column [i]. *)
Definition within_column {A : Type} (i : nat) (m : Run A) : Run A :=
  fun u =>
    match m (UI [] (requested u)) with
    | (r, u') => (r, UI (widgets u ++ map (in_column i) (widgets u')) (requested u'))
    end.

Declare Scope dash_scope.
Delimit Scope dash_scope with dash.
Notation "'do' x '<-' m ';' k" := (bind m (fun x => k))
  (at level 10, x binder, k at level 200) : dash_scope.
Notation "m ';;;' k" := (bind m (fun _ => k))
  (at level 100, k at level 200, right associativity) : dash_scope.
Local Open Scope dash_scope.

Definition API_BASE_URL : string := "http://127.0.0.1:8000".

(** [str(v)], as an f-string inserts a value. *)
Definition py_str (E : Env) (v : json) : string :=
  match v with
  | JStr s => s
  | JInt n => PyFloat.str_int n
  | JBool true => "True"
  | JBool false => "False"
  | JNull => "None"
  | _ => str_of E v
  end.

(** [v[k]] on the dashboard side *)
Definition subscript (v : json) (k : string) : Run json :=
  match getitem_key v k with
  | Ok x => ret x
  | Raise (PyException cls msg) => raise (PyError cls msg)
  | Raise (RequestException msg) => raise (RequestError msg None)
  | Raise (HTTPException _ detail) => raise (PyError "HTTPException" detail)
  end.

Definition requests_get (E : Env) (target : string) : Run response :=
  fun u =>
    let u' := UI (widgets u) (requested u ++ [target]) in
    match backend E target with
    | GetTimeout msg => (Fail (Timeout msg), u')
    | GetFails msg resp => (Fail (RequestError msg resp), u')
    | GetReplies r => (Done r, u')
    end.

(** The message of the [HTTPError] that [raise_for_status] raises, if any. *)
Definition http_error_msg (r : response) : option string :=
  if Z.leb 400 (status_code r) && Z.ltb (status_code r) 500
  then Some (PyFloat.str_int (status_code r) +:+ " Client Error: " +:+ reason r
             +:+ " for url: " +:+ url r)
  else if Z.leb 500 (status_code r) && Z.ltb (status_code r) 600
  then Some (PyFloat.str_int (status_code r) +:+ " Server Error: " +:+ reason r
             +:+ " for url: " +:+ url r)
  else None.

Definition raise_for_status (r : response) : Run unit :=
  match http_error_msg r with
  | Some msg => raise (RequestError msg (Some r))
  | None => ret tt
  end.

(** [bool(response)] is [response.ok]: true unless [raise_for_status]
    would raise. *)
Definition response_truthy (r : response) : bool :=
  match http_error_msg r with
  | Some _ => false
  | None => true
  end.

(** [response.json()]; the decoding error is a [RequestException] that
    carries no response. *)
Definition response_json (r : response) : Run json :=
  match body r with
  | inr v => ret v
  | inl msg => raise (RequestError msg None)
  end.

(** [v.get(key, default)] *)
Definition dict_get (v : json) (key : string) (default : json) : Run json :=
  match v with
  | JDict fields => ret (match assoc_get key fields with Some x => x | None => default end)
  | _ => raise (PyError "AttributeError"
                  ("'" +:+ type_name v +:+ "' object has no attribute 'get'"))
  end.

Definition get_api_data (E : Env) (endpoint : string) : Run json :=
  try_except
    (do response <- requests_get E (API_BASE_URL +:+ "/" +:+ endpoint);
     raise_for_status response;;;
     response_json response)
    (fun e =>
       match e with
       | Timeout _ =>
           emit (st_error "Connection Timeout: The request to the backend took too long. Google Earth Engine might be busy. Please try again later.");;;
           ret JNull
       | RequestError msg resp =>
           do error_detail <-
             match resp with
             | Some r =>
                 if response_truthy r
                 then (do decoded <- response_json r; dict_get decoded "detail" (JStr msg))
                 else ret (JStr msg)
             | None => ret (JStr msg)
             end;
           emit (st_error ("API Error: " +:+ py_str E error_detail));;;
           ret JNull
       | PyError _ _ => raise e
       end).

(** [float(v)] succeeds and is not a NaN, which is what folium asks of a
    coordinate. *)
Definition valid_coordinate (E : Env) (v : json) : bool :=
  match v with
  | JInt _ => true
  | JBool _ => true
  | JNum x => negb (PrimFloat.is_nan x)
  | JStr s => parses_as_float E s
  | _ => false
  end.

(** folium's check of a location; the text of its error is abridged. *)
Definition validate_location (E : Env) (lat lon : json) : Run unit :=
  if valid_coordinate E lat && valid_coordinate E lon
  then ret tt
  else raise (PyError "ValueError" "Location should consist of two numerical values.").

Definition create_map (E : Env) (loc : json) (zoom : Z) : Run folium_map :=
  do lat <- subscript loc "lat";
  do lon <- subscript loc "lon";
  validate_location E lat lon;;;
  ret (Map (lat, lon) zoom "CartoDB positron" []).

(** [st.metric(label, value)]: a list or a dict is refused. *)
Definition metric (E : Env) (label : string) (value : json) : Run unit :=
  match value with
  | JList _ | JDict _ =>
      raise (PyError "TypeError"
               ("'" +:+ py_str E value +:+ "' is of type <class '" +:+ type_name value
                +:+ "'>, which is not an accepted type. value only accepts: int, float, str, or None. Please convert the value to an accepted type."))
  | _ => emit (st_metric label value)
  end.

(** [s.split(' ')] *)
Fixpoint split_space_from (current : string) (s : string) : list string :=
  match s with
  | EmptyString => [current]
  | String c r =>
      if Ascii.eqb c " "%char
      then current :: split_space_from EmptyString r
      else split_space_from (current +:+ String c EmptyString) r
  end.

Definition split_space (s : string) : list string := split_space_from EmptyString s.

(** [st.session_state.get("city", "London")] *)
Definition session_city (session : gmap string string) : string :=
  default "London" (session !! "city").

Definition render_analysis_page (E : Env) (session : gmap string string)
    (page_title endpoint : string) (render_metrics_func : json -> Run unit) : Run unit :=
  emit (st_header page_title);;;
  let city := session_city session in
  do word <-
    match nth_error (split_space page_title) 1 with
    | Some word => ret word
    | None => raise (PyError "IndexError" "list index out of range")
    end;
  emit (st_spinner ("Analyzing " +:+ word +:+ " for " +:+ city
                    +:+ "... This involves processing satellite data and may take a moment."));;;
  do data <- get_api_data E ("city/" +:+ city +:+ "/" +:+ endpoint);
  if negb (py_truthy data) then ret tt
  else
    emit (st_columns [1; 2]);;;
    within_column 0
      (do name <- subscript data "city";
       emit (st_markdown ("### " +:+ py_str E name +:+ " Analysis"));;;
       render_metrics_func data);;;
    within_column 1
      (do loc <- subscript data "location";
       do m <- create_map E loc 12;
       do loc' <- subscript data "location";
       do lat <- subscript loc' "lat";
       do loc'' <- subscript data "location";
       do lon <- subscript loc'' "lon";
       do name <- subscript data "city";
       validate_location E lat lon;;;
       let pin := Marker (lat, lon) (py_str E name +:+ " Center") "City Center" in
       emit (st_folium (Map (location m) (zoom_start m) (tiles m) (markers m ++ [pin]))
                       700 500)).

Definition metrics_heat_map (E : Env) (data : json) : Run unit :=
  do avg_temp <- subscript data "avg_temp";
  metric E "🌡️ Avg. Surface Temperature" avg_temp;;;
  do data_source <- subscript data "data_source";
  emit (st_info ("🛰️ Data Source: " +:+ py_str E data_source)).

Definition metrics_green_cover (E : Env) (data : json) : Run unit :=
  do avg_coverage <- subscript data "avg_coverage";
  metric E "🌳 Average Green Cover" avg_coverage;;;
  do avg_ndvi <- subscript data "avg_ndvi";
  metric E "Average NDVI" avg_ndvi;;;
  do data_source <- subscript data "data_source";
  emit (st_info ("🛰️ Data Source: " +:+ py_str E data_source)).

Definition metrics_flood_risk (E : Env) (data : json) : Run unit :=
  do risk_score <- subscript data "risk_score";
  metric E "💧 Vulnerability Score" risk_score;;;
  do high_risk_zones <- subscript data "high_risk_zones";
  metric E "High Risk Zones" high_risk_zones;;;
  do avg_elevation <- subscript data "avg_elevation";
  metric E "Avg. Elevation" avg_elevation;;;
  emit (st_warning "Data on this page is simulated.").

Definition metrics_air_quality (E : Env) (data : json) : Run unit :=
  do avg_aqi <- subscript data "avg_aqi";
  metric E "💨 Average AQI" avg_aqi;;;
  do unhealthy_sensors <- subscript data "unhealthy_sensors";
  metric E "Unhealthy Sensors (>100)" unhealthy_sensors;;;
  do main_pollutant <- subscript data "main_pollutant";
  metric E "Main Pollutant" main_pollutant;;;
  emit (st_warning "Data on this page is simulated.").

Definition render_report_card (E : Env) (session : gmap string string) : Run unit :=
  emit (st_header "📈 Comprehensive Report Card");;;
  let city := session_city session in
  emit (st_warning "Data on this page is simulated.");;;
  do data <- get_api_data E ("city/" +:+ city +:+ "/reportcard");
  if negb (py_truthy data) then ret tt
  else
    do name <- subscript data "city";
    do overall_score <- subscript data "overall_score";
    emit (st_markdown ("## " +:+ py_str E name +:+ " | Overall Score: **"
                       +:+ py_str E overall_score +:+ "/100**"));;;
    do summary <- subscript data "summary";
    emit (st_info ("**Executive Summary:** " +:+ py_str E summary));;;
    emit (st_columns [1; 1]);;;
    do grades <- subscript data "grades";
    do air <- subscript grades "Air Quality";
    do air_grade <- subscript air "grade";
    within_column 0 (metric E "Air Quality" air_grade);;;
    do grades' <- subscript data "grades";
    do green <- subscript grades' "Green Cover";
    do green_grade <- subscript green "grade";
    within_column 1 (metric E "Green Cover" green_grade).

Definition render_simulator (E : Env) (session : gmap string string) : Run unit :=
  emit (st_header "🛠️ Urban Planning Simulator");;;
  emit (st_warning "Data on this page is simulated.");;;
  let city := session_city session in
  do sim_data <- get_api_data E ("city/" +:+ city
                                 +:+ "/simulate?intervention=Parks&scale=Medium");
  if negb (py_truthy sim_data) then ret tt
  else
    do impact <- subscript sim_data "impact";
    do temperature <- subscript impact "temperature";
    do change <- subscript temperature "change";
    metric E "Projected Temp. Change" change;;;
    do impact' <- subscript sim_data "impact";
    do aqi <- subscript impact' "aqi";
    do change' <- subscript aqi "change";
    metric E "Projected AQI Change" change'.

(** A fresh run: nothing emitted, nothing requested. *)
Definition u0 : ui := UI [] [].

(** A service that answers every request with the same reply. *)
Definition always_replies (status : Z) (why : string) (b : string + json)
  : string -> get_result :=
  fun target => GetReplies (Response status why target b).

Definition make_env (service : string -> get_result) : Env :=
  {| backend := service;
     str_of := fun _ => "?";
     parses_as_float := fun _ => false |}.

End Dashboard.

(** A dashboard environment whose service answers 200 with [payload]. *)
Definition dash_ok (payload : json) : Dashboard.Env :=
  Dashboard.make_env (Dashboard.always_replies 200 "OK" (inr payload)).

(** The service environment of the examples: no key, geocoding down,
    the reference platform over the sample scenes. *)
Definition sample_service : Env :=
  make_env None service_down (Platform.run (landsat_only sample_scenes)).

(** What the vegetation endpoint answers for Mumbai at an NDVI of 0.25. *)
Definition mumbai_green_payload : json :=
  JDict [ ("city", JStr "Mumbai");
          ("location", JDict [("lat", JNum 19.0760); ("lon", JNum 72.8777)]);
          ("avg_coverage", JStr "62.50%");
          ("avg_ndvi", JStr "0.2500");
          ("data_source", JStr "Sentinel-2 Satellite") ].

(** What the simulated endpoints answer for Mumbai and London in
    [sample_service], whose generator counts up from 0. *)
Definition mumbai_flood_payload : json :=
  JDict [ ("city", JStr "Mumbai");
          ("location", JDict [("lat", JNum 19.0760); ("lon", JNum 72.8777)]);
          ("risk_score", JStr "10/100");
          ("high_risk_zones", JInt 2);
          ("avg_elevation", JStr "42m") ].

Definition london_air_payload : json :=
  JDict [ ("city", JStr "London");
          ("location", JDict [("lat", JNum 51.5072); ("lon", JNum (-0.1276))]);
          ("avg_aqi", JInt 30);
          ("unhealthy_sensors", JInt 1);
          ("main_pollutant", JStr "NO2") ].

Definition london_report_payload : json :=
  JDict [ ("city", JStr "London");
          ("location", JDict [("lat", JNum 51.5072); ("lon", JNum (-0.1276))]);
          ("overall_score", JInt 60);
          ("summary", JStr "This is a simulated summary.");
          ("grades",
           JDict [ ("Air Quality", JDict [("grade", JStr "C+")]);
                   ("Green Cover", JDict [("grade", JStr "A-")]) ]) ].

(** Closes a goal on a run of the dashboard once its subscripts are known. *)
Ltac dash_finish :=
  cbn; unfold Dashboard.emit; cbn [Dashboard.widgets Dashboard.requested];
  rewrite <- ?app_assoc; reflexivity.

(** * Properties *)

(** ** Strings *)

Lemma to_lower_to_upper (c : ascii) :
  PyStr.to_lower (PyStr.to_upper c) = PyStr.to_lower c.
Proof.
  destruct c as [[] [] [] [] [] [] [] []]; reflexivity.
Qed.

Lemma lower_ascii_recase (mask : list bool) (s : string) :
  PyStr.lower_ascii (PyStr.recase mask s) = PyStr.lower_ascii s.
Proof.
  revert mask; induction s as [|c r IH]; intros [|[] m]; simpl; trivial.
  - now rewrite to_lower_to_upper, IH.
  - now rewrite IH.
Qed.

Lemma lower_recase (mask : list bool) (s : string) :
  PyStr.lower (PyStr.recase mask s) = PyStr.lower s.
Proof.
  unfold PyStr.lower. now rewrite lower_ascii_recase.
Qed.

(** The Kelvin sign is lowered to "k", as [str.lower] does, so the
    spelling of Tokyo with it is a key of the table. *)
Lemma lower_kelvin_sign :
  PyStr.lower "TOKYO" = "tokyo"
  /\ known_cities !! PyStr.lower "toKyo" = Some (35.6762%float, 139.6503%float).
Proof. split; vm_compute; reflexivity. Qed.

(** ** City resolver *)

Lemma known_city_tokyo :
  known_cities !! "tokyo" = Some (35.6762%float, 139.6503%float).
Proof. vm_compute. reflexivity. Qed.

Lemma get_city_coords_table (E : Env) (city_name : string) (lat lon : float) (w : world) :
  known_cities !! PyStr.lower city_name = Some (lat, lon) ->
  get_city_coords E city_name w = (Ok (JNum lat, JNum lon), w).
Proof.
  intros H. unfold get_city_coords. rewrite H. reflexivity.
Qed.

(** C3: a city whose lower-cased name is in the static table resolves to
    the table's pair and leaves the world as it was (nothing is fetched);
    two spellings with the same lower-cased form resolve alike; and every
    casing of "tokyo" resolves to (35.6762, 139.6503). *)
Theorem get_city_coords_known_city
    (E : Env) (city_name : string) (lat lon : float) (w : world) :
  known_cities !! PyStr.lower city_name = Some (lat, lon) ->
  get_city_coords E city_name w = (Ok (JNum lat, JNum lon), w)
  /\ (forall other : string,
        PyStr.lower other = PyStr.lower city_name ->
        get_city_coords E other w = (Ok (JNum lat, JNum lon), w))
  /\ (forall mask : list bool,
        get_city_coords E (PyStr.recase mask "tokyo") w
        = (Ok (JNum 35.6762, JNum 139.6503), w)).
Proof.
  intros H. split; [|split].
  - now apply get_city_coords_table.
  - intros other Ho. apply get_city_coords_table. now rewrite Ho.
  - intros mask. apply get_city_coords_table.
    rewrite lower_recase. exact known_city_tokyo.
Qed.

Lemma get_city_coords_known_city_witness :
  known_cities !! PyStr.lower "New York" = Some (40.7128%float, (-74.0060)%float)
  /\ get_city_coords (make_env None service_down (platform_fails "down")) "New York" w0
     = (Ok (JNum 40.7128, JNum (-74.0060)), w0).
Proof.
  assert (H : known_cities !! PyStr.lower "New York"
              = Some (40.7128%float, (-74.0060)%float))
    by (vm_compute; reflexivity).
  split; [exact H|].
  exact (proj1 (get_city_coords_known_city
                  (make_env None service_down (platform_fails "down"))
                  "New York" _ _ w0 H)).
Defined.

Lemma getitem_0_raises (v : json) (e : exn) :
  getitem_0 v = Raise e -> exists cls msg, e = PyException cls msg.
Proof.
  destruct v as [| | | | [|] | [|] | ]; simpl; intros H; inversion H; eauto.
Qed.

Lemma getitem_key_raises (v : json) (k : string) (e : exn) :
  getitem_key v k = Raise e -> exists cls msg, e = PyException cls msg.
Proof.
  destruct v; simpl; try (intros H; inversion H; eauto; fail).
  destruct (assoc_get k fields); intros H; inversion H; eauto.
Qed.

Lemma coords_of_reply_raises (data : json) (e : exn) :
  coords_of_reply data = Raise e -> exists cls msg, e = PyException cls msg.
Proof.
  unfold coords_of_reply.
  destruct (getitem_0 data) as [hit|e0] eqn:H0.
  - destruct (getitem_key hit "lat") as [lat|e1] eqn:H1.
    + destruct (getitem_key hit "lon") as [lon|e2] eqn:H2.
      * discriminate.
      * intros H; inversion H; subst. eapply getitem_key_raises; eauto.
    + intros H; inversion H; subst. eapply getitem_key_raises; eauto.
  - intros H; inversion H; subst. eapply getitem_0_raises; eauto.
Qed.

(** What the resolver does for a city outside the table once a key is
    configured: one call, then a case analysis on its outcome. *)
Lemma get_city_coords_fallback (E : Env) (city_name : string) (w : world) :
  known_cities !! PyStr.lower city_name = None ->
  api_key_configured E = true ->
  get_city_coords E city_name w
  = ( match net E (geocoding_url E city_name) with
      | GetRaises _ =>
          Raise (HTTPException 503 "Geocoding service is unavailable.")
      | GetUndecodable _ _ =>
          Raise (HTTPException 503 "Geocoding service is unavailable.")
      | GetResponse status_code data =>
          if error_status status_code
          then Raise (HTTPException 503 "Geocoding service is unavailable.")
          else if py_truthy data
               then coords_of_reply data
               else Raise (HTTPException 404 ("City '" +:+ city_name +:+ "' not found."))
      end,
      World (net_log w ++ [geocoding_url E city_name]) (rng_draws w) ).
Proof.
  intros Hk Hkey.
  unfold get_city_coords. rewrite Hk, Hkey. simpl negb. cbv iota.
  unfold try_except, bind, requests_get, raise_for_status, response_json,
    error_status.
  destruct (net E (geocoding_url E city_name)) as [what | status_code data | status_code what];
    [reflexivity| |].
  - cbn [fst snd].
    destruct (Z.leb 400 status_code && Z.ltb status_code 600); [reflexivity|].
    cbn [ret raise].
    destruct (py_truthy data) eqn:Ht; cbn [negb]; [|reflexivity].
    unfold coords_of_reply, lift, ret.
    destruct (getitem_0 data) as [hit | e] eqn:H0.
    + destruct (getitem_key hit "lat") as [lat | e] eqn:Hlat.
      * destruct (getitem_key hit "lon") as [lon | e] eqn:Hlon; [reflexivity|].
        destruct (coords_of_reply_raises data e) as (cls & msg & ->); [|reflexivity].
        unfold coords_of_reply. now rewrite H0, Hlat, Hlon.
      * destruct (coords_of_reply_raises data e) as (cls & msg & ->); [|reflexivity].
        unfold coords_of_reply. now rewrite H0, Hlat.
    + destruct (coords_of_reply_raises data e) as (cls & msg & ->); [|reflexivity].
      unfold coords_of_reply. now rewrite H0.
  - cbn [fst snd].
    destruct (Z.leb 400 status_code && Z.ltb status_code 600); reflexivity.
Qed.

Lemma get_city_coords_no_key (E : Env) (city_name : string) (w : world) :
  known_cities !! PyStr.lower city_name = None ->
  api_key_configured E = false ->
  get_city_coords E city_name w
  = (Raise (HTTPException 500 "OpenWeatherMap API key is not configured."), w).
Proof.
  intros Hk Hkey. unfold get_city_coords. now rewrite Hk, Hkey.
Qed.

(** C4, as the code has it: for a city outside the table, with no key
    configured the resolver fails with HTTP 500 and fetches nothing; with
    a key it makes one geocoding call, fails with 404 exactly when the
    call answers without an error status and with an empty result, fails
    with 503 whenever the call raises, answers with a 4xx/5xx status or
    answers with a body that is not JSON, and raises no other HTTP
    error. *)
Theorem get_city_coords_failure_modes (E : Env) (city_name : string) (w : world) :
  known_cities !! PyStr.lower city_name = None ->
  (api_key_configured E = false ->
   get_city_coords E city_name w
   = (Raise (HTTPException 500 "OpenWeatherMap API key is not configured."), w))
  /\ (api_key_configured E = true ->
      snd (get_city_coords E city_name w)
      = World (net_log w ++ [geocoding_url E city_name]) (rng_draws w)
      /\ (forall detail,
            fst (get_city_coords E city_name w) = Raise (HTTPException 404 detail)
            <-> (exists status_code data,
                   net E (geocoding_url E city_name) = GetResponse status_code data
                   /\ error_status status_code = false
                   /\ py_truthy data = false)
                /\ detail = "City '" +:+ city_name +:+ "' not found.")
      /\ ((exists what, net E (geocoding_url E city_name) = GetRaises what)
          \/ (exists status_code data,
                net E (geocoding_url E city_name) = GetResponse status_code data
                /\ error_status status_code = true)
          \/ (exists status_code what,
                net E (geocoding_url E city_name) = GetUndecodable status_code what) ->
          fst (get_city_coords E city_name w)
          = Raise (HTTPException 503 "Geocoding service is unavailable."))
      /\ (forall status_code detail,
            fst (get_city_coords E city_name w)
            = Raise (HTTPException status_code detail) ->
            status_code = 404 \/ status_code = 503)).
Proof.
  intros Hk. split; [now apply get_city_coords_no_key|].
  intros Hkey. rewrite (get_city_coords_fallback E city_name w Hk Hkey).
  cbn [fst snd]. split; [reflexivity|].
  assert (Hpy : forall data st d, coords_of_reply data <> Raise (HTTPException st d)).
  { intros data st d Hc. destruct (coords_of_reply_raises _ _ Hc) as (c & m & Hm).
    discriminate Hm. }
  destruct (net E (geocoding_url E city_name)) as [what | status_code data | status_code what];
    [| destruct (error_status status_code) eqn:Hs;
       [| destruct (py_truthy data) eqn:Ht] |];
    (split; [intros detail; split; intros H
            | split; [intros H | intros st d H]]).
  all: try (exfalso; eapply Hpy; eassumption).
  all: try discriminate H.
  all: try reflexivity.
  all: try (destruct H as (H & ->); reflexivity).
  all: try (inversion H; subst; auto; split; eauto 8; fail).
  all: try (destruct H as ((st & d & H & Hst & Hf) & _); inversion H; subst; congruence).
  all: try (destruct H as [(wh & H) | [(st & d & H & Hst) | (st & wh & H)]];
            first [discriminate H | inversion H; subst; congruence]).
Qed.

Lemma get_city_coords_failure_modes_witness :
  known_cities !! PyStr.lower "Atlantis" = None
  /\ get_city_coords (make_env None service_down (platform_fails "down")) "Atlantis" w0
     = (Raise (HTTPException 500 "OpenWeatherMap API key is not configured."), w0)
  /\ snd (get_city_coords
            (make_env (Some "k") (service_replies 200 (JList [])) (platform_fails "down"))
            "Atlantis" w0)
     = World ["http://api.openweathermap.org/geo/1.0/direct?q=Atlantis&limit=1&appid=k"] 0
  /\ fst (get_city_coords
            (make_env (Some "k") service_garbled (platform_fails "down"))
            "Atlantis" w0)
     = Raise (HTTPException 503 "Geocoding service is unavailable.").
Proof.
  assert (H : known_cities !! PyStr.lower "Atlantis" = None)
    by (vm_compute; reflexivity).
  split; [exact H|]. split; [|split].
  - exact (proj1 (get_city_coords_failure_modes
                    (make_env None service_down (platform_fails "down"))
                    "Atlantis" w0 H) eq_refl).
  - exact (proj1 (proj2 (get_city_coords_failure_modes
                           (make_env (Some "k") (service_replies 200 (JList []))
                              (platform_fails "down"))
                           "Atlantis" w0 H) eq_refl)).
  - apply (proj1 (proj2 (proj2 (proj2 (get_city_coords_failure_modes
                                         (make_env (Some "k") service_garbled
                                            (platform_fails "down"))
                                         "Atlantis" w0 H) eq_refl)))).
    right. right. eexists _, _. reflexivity.
Defined.

(** C4 as stated fails: with no key configured, a city outside the table
    makes the resolver fail with HTTP 500, which is neither NotFound nor
    ServiceUnavailable, although the geocoding service is down. *)
Lemma get_city_coords_other_failure : ~ fails_only_with_404_or_503.
Proof.
  intros H.
  destruct (H (make_env None service_down (platform_fails "down"))
              "Atlantis" w0 w0
              (HTTPException 500 "OpenWeatherMap API key is not configured."))
    as (detail & [Hd | Hd]).
  - vm_compute. reflexivity.
  - vm_compute. reflexivity.
  - discriminate Hd.
  - discriminate Hd.
Qed.

Lemma get_city_coords_http_errors
    (E : Env) (city_name : string) (w w' : world) (status_code : Z) (detail : string) :
  get_city_coords E city_name w = (Raise (HTTPException status_code detail), w') ->
  detail = "OpenWeatherMap API key is not configured."
  \/ detail = "City '" +:+ city_name +:+ "' not found."
  \/ detail = "Geocoding service is unavailable.".
Proof.
  intros H.
  destruct (known_cities !! PyStr.lower city_name) as [[lat lon]|] eqn:Hk.
  - rewrite (get_city_coords_table E city_name lat lon w Hk) in H. discriminate H.
  - destruct (api_key_configured E) eqn:Hkey.
    + rewrite (get_city_coords_fallback E city_name w Hk Hkey) in H.
      destruct (net E (geocoding_url E city_name)) as [what | st data | st what].
      * inversion H; auto.
      * destruct (error_status st); [inversion H; auto|].
        destruct (py_truthy data); [|inversion H; auto].
        destruct (coords_of_reply data) as [p | e] eqn:Hc; [discriminate H|].
        destruct (coords_of_reply_raises data e Hc) as (cls & msg & ->).
        discriminate H.
      * inversion H; auto.
    + rewrite (get_city_coords_no_key E city_name w Hk Hkey) in H.
      inversion H; auto.
Qed.

(** ** Vegetation pipeline *)

(** C1: whenever the regional reduction returns an NDVI value, the reply
    carries the percentage [(ndvi + 1) * 50] printed with two decimals;
    0 gives 50.00%, -1 gives 0.00% and 1 gives 100.00%. *)
Theorem green_cover_percentage
    (E : Env) (city : string) (w w' : world) (lat lon : json)
    (stats : EE.stats) (avg_ndvi : float) :
  get_city_coords E city w = (Ok (lat, lon), w') ->
  ee_getInfo E (green_query lat lon) = EE.Returns stats ->
  EE.stats_get stats "NDVI" = Some avg_ndvi ->
  exists payload,
    get_green_cover_real E city w = (Ok payload, w')
    /\ payload_field "avg_coverage" payload
       = Some (JStr (PyFloat.format_f 2 ((avg_ndvi + 1) * 50) +:+ "%"))
    /\ (avg_ndvi = 0%float ->
        payload_field "avg_coverage" payload = Some (JStr "50.00%"))
    /\ (avg_ndvi = (-1)%float ->
        payload_field "avg_coverage" payload = Some (JStr "0.00%"))
    /\ (avg_ndvi = 1%float ->
        payload_field "avg_coverage" payload = Some (JStr "100.00%")).
Proof.
  intros Hc Hq Hs.
  unfold get_green_cover_real, try_except, bind, getInfo.
  rewrite Hc, Hq. unfold ret. rewrite Hs.
  eexists. split; [reflexivity|].
  split; [reflexivity|].
  repeat split; intros ->; vm_compute; reflexivity.
Qed.

Lemma green_cover_percentage_witness :
  exists payload,
    get_green_cover_real
      (make_env None service_down (platform_returns "NDVI" (Some 1%float)))
      "new york" w0 = (Ok payload, w0)
    /\ payload_field "avg_coverage" payload = Some (JStr "100.00%").
Proof.
  destruct (green_cover_percentage
              (make_env None service_down (platform_returns "NDVI" (Some 1%float)))
              "new york" w0 w0 (JNum 40.7128) (JNum (-74.0060))
              {[ "NDVI" := Some 1%float ]} 1%float)
    as (payload & Hp & _ & _ & _ & H1).
  - vm_compute. reflexivity.
  - reflexivity.
  - vm_compute. reflexivity.
  - exists payload. split; [exact Hp | exact (H1 eq_refl)].
Defined.

(** C5: whenever the regional reduction returns no NDVI value, the
    endpoint fails with HTTP 404, its detail reads "Could not calculate
    NDVI for this area." (so it contains "could not calculate" once case
    is ignored), and no payload is returned. *)
Theorem green_cover_no_value
    (E : Env) (city : string) (w w' : world) (lat lon : json) (stats : EE.stats) :
  get_city_coords E city w = (Ok (lat, lon), w') ->
  ee_getInfo E (green_query lat lon) = EE.Returns stats ->
  EE.stats_get stats "NDVI" = None ->
  get_green_cover_real E city w
  = (Raise (HTTPException 404 "Could not calculate NDVI for this area."), w')
  /\ PyStr.contains "could not calculate"
       (PyStr.lower "Could not calculate NDVI for this area.") = true
  /\ (forall payload, fst (get_green_cover_real E city w) <> Ok payload).
Proof.
  intros Hc Hq Hs.
  assert (Hr : get_green_cover_real E city w
               = (Raise (HTTPException 404 "Could not calculate NDVI for this area."), w')).
  { unfold get_green_cover_real, try_except, bind, getInfo.
    rewrite Hc, Hq. unfold ret. rewrite Hs. reflexivity. }
  split; [exact Hr|]. split; [reflexivity|].
  intros payload. rewrite Hr. discriminate.
Qed.

Lemma green_cover_no_value_witness :
  get_green_cover_real
    (make_env None service_down (platform_returns "NDVI" None)) "Mumbai" w0
  = (Raise (HTTPException 404 "Could not calculate NDVI for this area."), w0).
Proof.
  refine (proj1 (green_cover_no_value
                   (make_env None service_down (platform_returns "NDVI" None))
                   "Mumbai" w0 w0 (JNum 19.0760) (JNum 72.8777)
                   {[ "NDVI" := None ]} _ _ _)).
  - vm_compute. reflexivity.
  - reflexivity.
  - vm_compute. reflexivity.
Defined.

Lemma green_cover_platform_error
    (E : Env) (city : string) (w w' : world) (lat lon : json) (cls msg : string) :
  get_city_coords E city w = (Ok (lat, lon), w') ->
  ee_getInfo E (green_query lat lon) = EE.Fails cls msg ->
  get_green_cover_real E city w
  = (Raise (HTTPException 500 ("An Earth Engine error occurred: " +:+ msg)), w').
Proof.
  intros Hc Hq.
  unfold get_green_cover_real, try_except, bind, getInfo.
  rewrite Hc, Hq. reflexivity.
Qed.

(** ** Sorting by acquisition time *)

Section NewestFirst.

Variable leb : Platform.image -> Platform.image -> bool.
Hypothesis leb_newest_first :
  forall a b, leb a b = true
              <-> Platform.system_time_start b <= Platform.system_time_start a.

Lemma insert_sorted_In (x z : Platform.image) (l : list Platform.image) :
  In z (Platform.insert_sorted leb x l) <-> z = x \/ In z l.
Proof.
  induction l as [|y r IH]; simpl.
  - intuition.
  - destruct (leb x y); simpl; [intuition|].
    rewrite IH. intuition.
Qed.

Lemma sort_images_In (z : Platform.image) (l : list Platform.image) :
  In z (Platform.sort_images leb l) <-> In z l.
Proof.
  induction l as [|x r IH]; simpl; [reflexivity|].
  rewrite insert_sorted_In, IH. intuition.
Qed.

Lemma insert_sorted_head (x : Platform.image) (l : list Platform.image) :
  head_is_newest l -> head_is_newest (Platform.insert_sorted leb x l).
Proof.
  destruct l as [|y r]; intros Hl m Hm j Hj; simpl in *.
  - inversion Hm; subst. destruct Hj as [<-|[]]. lia.
  - destruct (leb x y) eqn:Hxy; simpl in *; inversion Hm; subst.
    + apply leb_newest_first in Hxy.
      destruct Hj as [<-|Hj]; [lia|].
      specialize (Hl y eq_refl j Hj). lia.
    + assert (Hlt : Platform.system_time_start x < Platform.system_time_start m).
      { destruct (Z.le_gt_cases (Platform.system_time_start m)
                                (Platform.system_time_start x)) as [Hle|Hgt];
          [|exact Hgt].
        apply leb_newest_first in Hle. congruence. }
      destruct Hj as [<-|Hj]; [lia|].
      apply insert_sorted_In in Hj. destruct Hj as [->|Hj]; [lia|].
      apply (Hl m eq_refl). now right.
Qed.

Lemma sort_images_head (l : list Platform.image) :
  head_is_newest (Platform.sort_images leb l).
Proof.
  induction l as [|x r IH]; simpl.
  - intros m Hm. discriminate Hm.
  - now apply insert_sorted_head.
Qed.

Lemma sort_images_first (l : list Platform.image) :
  l <> [] ->
  exists m, head (Platform.sort_images leb l) = Some m
            /\ In m l
            /\ forall j, In j l ->
                         Platform.system_time_start j <= Platform.system_time_start m.
Proof.
  intros Hne.
  destruct (Platform.sort_images leb l) as [|m r] eqn:Hs.
  - destruct l as [|x r]; [congruence|].
    assert (Hx : In x (Platform.sort_images leb (x :: r)))
      by (apply sort_images_In; now left).
    rewrite Hs in Hx. destruct Hx.
  - exists m. split; [reflexivity|]. split.
    + apply sort_images_In. rewrite Hs. now left.
    + intros j Hj. apply (sort_images_head l m); [now rewrite Hs|].
      now apply sort_images_In.
Qed.

End NewestFirst.

Lemma time_start_newest_first (a b : Platform.image) :
  Platform.image_leb "system:time_start" b a = true
  <-> Platform.system_time_start b <= Platform.system_time_start a.
Proof.
  unfold Platform.image_leb. simpl String.eqb. cbv iota. apply Z.leb_le.
Qed.

(** ** Heat pipeline *)

Lemma sample_scenes_latest :
  option_map Platform.system_time_start
    (Platform.first_image (landsat_only sample_scenes) (heat_collection tokyo_area))
  = Some 1692000000000.
Proof. vm_compute. reflexivity. Qed.

(** The reply of the heat endpoint once the city is resolved: it depends
    on the platform's answer to one query only. *)
Lemma get_heat_map_real_resolved
    (E : Env) (city : string) (w w' : world) (lat lon : json) :
  get_city_coords E city w = (Ok (lat, lon), w') ->
  get_heat_map_real E city w
  = ( match ee_getInfo E (heat_query (area_of_interest lat lon)
                            (EE.first_of (heat_collection (area_of_interest lat lon)))) with
      | EE.Fails _ msg =>
          Raise (HTTPException 500 ("An Earth Engine error occurred: " +:+ msg))
      | EE.Returns stats =>
          match EE.stats_get stats "LST_Celsius" with
          | None => Raise (HTTPException 404 "Could not calculate temperature.")
          | Some avg_temp =>
              Ok (JDict
                    [ ("city", JStr (PyStr.title city));
                      ("location", JDict [("lat", lat); ("lon", lon)]);
                      ("avg_temp", JStr (PyFloat.format_f 2 avg_temp +:+ "°C"));
                      ("data_source", JStr "Landsat 9 Satellite") ])
          end
      end, w').
Proof.
  intros Hc.
  unfold get_heat_map_real, try_except, bind, getInfo, EE.first.
  rewrite Hc. cbv iota beta.
  destruct (ee_getInfo E _) as [cls msg | stats]; [reflexivity|].
  unfold ret. destruct (EE.stats_get stats "LST_Celsius"); reflexivity.
Qed.

(** The part of C6 the code keeps: an empty reduction is a 404, a platform
    error is a 500. *)
Lemma heat_map_empty_reduction
    (E : Env) (city : string) (w w' : world) (lat lon : json) (stats : EE.stats) :
  get_city_coords E city w = (Ok (lat, lon), w') ->
  ee_getInfo E (heat_query (area_of_interest lat lon)
                  (EE.first_of (heat_collection (area_of_interest lat lon))))
  = EE.Returns stats ->
  EE.stats_get stats "LST_Celsius" = None ->
  get_heat_map_real E city w
  = (Raise (HTTPException 404 "Could not calculate temperature."), w').
Proof.
  intros Hc Hq Hs. rewrite (get_heat_map_real_resolved E city w w' lat lon Hc).
  now rewrite Hq, Hs.
Qed.

Lemma heat_map_platform_error
    (E : Env) (city : string) (w w' : world) (lat lon : json) (cls msg : string) :
  get_city_coords E city w = (Ok (lat, lon), w') ->
  ee_getInfo E (heat_query (area_of_interest lat lon)
                  (EE.first_of (heat_collection (area_of_interest lat lon))))
  = EE.Fails cls msg ->
  get_heat_map_real E city w
  = (Raise (HTTPException 500 ("An Earth Engine error occurred: " +:+ msg)), w').
Proof.
  intros Hc Hq. rewrite (get_heat_map_real_resolved E city w w' lat lon Hc).
  now rewrite Hq.
Qed.

(** The check [latest_image is None] never fires: whatever the geocoding
    service and the platform do, the endpoint does not answer "No valid
    satellite imagery found for the date range." *)
Lemma heat_map_never_reports_missing_imagery (E : Env) (city : string) (w : world) :
  forall status_code,
    fst (get_heat_map_real E city w)
    <> Raise (HTTPException status_code
                "No valid satellite imagery found for the date range.").
Proof.
  intros status_code.
  destruct (get_city_coords E city w) as [[[lat lon] | e] w'] eqn:Hc.
  - rewrite (get_heat_map_real_resolved E city w w' lat lon Hc). cbn [fst].
    destruct (ee_getInfo E _) as [cls msg | stats]; [discriminate|].
    destruct (EE.stats_get stats "LST_Celsius"); discriminate.
  - unfold get_heat_map_real, try_except, bind. rewrite Hc.
    destruct e as [st d | what | cls msg]; cbn; try discriminate.
    destruct (get_city_coords_http_errors E city w w' st d Hc) as [-> | [-> | ->]];
      discriminate.
Qed.

(** ** The heat pipeline on the reference platform *)

Lemma eval_scale_thermal
    (cat : Platform.catalog) (g : EE.geometry) (scale : Z) (c : EE.collection)
    (img : Platform.image) (px : list float) :
  Platform.first_image cat c = Some img ->
  assoc_get "ST_B10" (Platform.samples img g scale) = Some px ->
  Platform.eval_image cat g scale (scale_thermal (EE.first_of c))
  = inr (Some [("ST_B10",
                map (fun x => (x * 0.00341802 + 149.0 - 273.15)%float) px)]).
Proof.
  intros Hf Hb. unfold scale_thermal. cbn [Platform.eval_image].
  rewrite Hf. cbn [option_map]. rewrite Hb.
  unfold Platform.arithmetic, Platform.pointwise. cbn [map fst snd].
  now rewrite !List.map_map.
Qed.

Lemma stats_get_single (band : string) (v : option float) :
  EE.stats_get (list_to_map [(band, v)]) band = v.
Proof.
  unfold EE.stats_get, EE.stats.
  rewrite list_to_map_cons, lookup_insert_eq. reflexivity.
Qed.

(** The reply of the heat endpoint on the reference platform, read off
    the first image of the collection the endpoint asks for. *)
Lemma heat_map_on_first_image
    (S : Env) (cat : Platform.catalog) (city : string) (w w' : world)
    (lat lon : json) (img : Platform.image) :
  ee_getInfo S = Platform.run cat ->
  get_city_coords S city w = (Ok (lat, lon), w') ->
  Platform.first_image cat (heat_collection (area_of_interest lat lon)) = Some img ->
  get_heat_map_real S city w
  = ( match assoc_get "ST_B10" (Platform.samples img (area_of_interest lat lon) 30) with
      | Some px =>
          match Platform.mean
                  (map (fun x => (x * 0.00341802 + 149.0 - 273.15)%float) px) with
          | Some avg_temp =>
              Ok (JDict
                    [ ("city", JStr (PyStr.title city));
                      ("location", JDict [("lat", lat); ("lon", lon)]);
                      ("avg_temp", JStr (PyFloat.format_f 2 avg_temp +:+ "°C"));
                      ("data_source", JStr "Landsat 9 Satellite") ])
          | None => Raise (HTTPException 404 "Could not calculate temperature.")
          end
      | None =>
          Raise (HTTPException 500
                   "An Earth Engine error occurred: Image.select: Pattern 'ST_B10' did not match any bands.")
      end, w').
Proof.
  intros HE Hc Hf.
  rewrite (get_heat_map_real_resolved S city w w' lat lon Hc), HE.
  unfold Platform.run, heat_query.
  cbn [EE.rr_image EE.rr_geometry EE.rr_scale].
  destruct (assoc_get "ST_B10" (Platform.samples img (area_of_interest lat lon) 30))
    as [px|] eqn:Hb.
  - cbn [Platform.eval_image].
    rewrite (eval_scale_thermal cat _ 30 _ img px Hf Hb).
    cbn [map fst snd]. rewrite stats_get_single. reflexivity.
  - unfold scale_thermal. cbn [Platform.eval_image].
    rewrite Hf. cbn [option_map]. rewrite Hb. reflexivity.
Qed.

(** C7: on the reference platform the heat endpoint works from exactly one
    image of the filtered collection, the most recent one: whenever the
    filtered collection is not empty there is an image of it whose
    [system:time_start] is maximal and from whose thermal samples alone
    the reply is computed. *)
Theorem heat_latest_image_is_most_recent
    (S : Env) (cat : Platform.catalog) (city : string) (w w' : world) (lat lon : json) :
  ee_getInfo S = Platform.run cat ->
  get_city_coords S city w = (Ok (lat, lon), w') ->
  Platform.eval_collection cat (heat_filtered (area_of_interest lat lon)) <> [] ->
  exists img,
    In img (Platform.eval_collection cat (heat_filtered (area_of_interest lat lon)))
    /\ (forall other,
          In other (Platform.eval_collection cat
                      (heat_filtered (area_of_interest lat lon))) ->
          Platform.system_time_start other <= Platform.system_time_start img)
    /\ get_heat_map_real S city w
       = ( match assoc_get "ST_B10"
                   (Platform.samples img (area_of_interest lat lon) 30) with
           | Some px =>
               match Platform.mean
                       (map (fun x => (x * 0.00341802 + 149.0 - 273.15)%float) px) with
               | Some avg_temp =>
                   Ok (JDict
                         [ ("city", JStr (PyStr.title city));
                           ("location", JDict [("lat", lat); ("lon", lon)]);
                           ("avg_temp", JStr (PyFloat.format_f 2 avg_temp +:+ "°C"));
                           ("data_source", JStr "Landsat 9 Satellite") ])
               | None => Raise (HTTPException 404 "Could not calculate temperature.")
               end
           | None =>
               Raise (HTTPException 500
                        "An Earth Engine error occurred: Image.select: Pattern 'ST_B10' did not match any bands.")
           end, w').
Proof.
  intros HE Hc Hne.
  destruct (sort_images_first
              (fun a b => Platform.image_leb "system:time_start" b a)
              (fun a b => time_start_newest_first a b)
              (Platform.eval_collection cat (heat_filtered (area_of_interest lat lon)))
              Hne)
    as (img & Hhead & Hin & Hmax).
  exists img. split; [exact Hin|]. split; [exact Hmax|].
  apply (heat_map_on_first_image S cat city w w' lat lon img HE Hc).
  unfold Platform.first_image, heat_collection.
  cbn [Platform.eval_collection]. exact Hhead.
Qed.

Lemma heat_latest_image_is_most_recent_witness :
  exists img,
    In img (Platform.eval_collection (landsat_only sample_scenes)
              (heat_filtered (area_of_interest (JNum 35.6762) (JNum 139.6503))))
    /\ Platform.system_time_start img = 1692000000000
    /\ fst (get_heat_map_real sample_service "Tokyo" w0)
       = Ok (JDict
               [ ("city", JStr "Tokyo");
                 ("location", JDict [("lat", JNum 35.6762); ("lon", JNum 139.6503)]);
                 ("avg_temp", JStr "29.66°C");
                 ("data_source", JStr "Landsat 9 Satellite") ]).
Proof.
  destruct (heat_latest_image_is_most_recent sample_service
              (landsat_only sample_scenes) "Tokyo" w0 w0
              (JNum 35.6762) (JNum 139.6503))
    as (img & Hin & Hmax & Hreply).
  - reflexivity.
  - vm_compute. reflexivity.
  - vm_compute. intros H. discriminate H.
  - exists img. split; [exact Hin|]. split.
    + apply Z.le_antisymm.
      * vm_compute in Hin. destruct Hin as [<- | [<- | []]]; vm_compute; discriminate.
      * apply (Hmax (scene 1692000000000 3 [40000%float; 50000%float])).
        vm_compute. right. left. reflexivity.
    + vm_compute. reflexivity.
Defined.

(** C2: on the reference platform the image that the heat endpoint asks
    the platform to reduce holds, for every raw sample [x] of band ST_B10
    of the selected image, the value [x * 0.00341802 + 149.0 - 273.15], and
    the endpoint reports the regional mean of these values; a region whose
    only raw sample is 100 is reduced to the value that prints as -123.808
    to three decimals, and reported as -123.81°C. *)
Theorem heat_pipeline_converts_to_celsius
    (S : Env) (cat : Platform.catalog) (city : string) (w w' : world)
    (lat lon : json) (img : Platform.image) (px : list float) :
  ee_getInfo S = Platform.run cat ->
  get_city_coords S city w = (Ok (lat, lon), w') ->
  Platform.first_image cat (heat_collection (area_of_interest lat lon)) = Some img ->
  assoc_get "ST_B10" (Platform.samples img (area_of_interest lat lon) 30) = Some px ->
  Platform.eval_image cat (area_of_interest lat lon) 30
    (EE.rr_image
       (heat_query (area_of_interest lat lon)
          (EE.first_of (heat_collection (area_of_interest lat lon)))))
  = inr (Some [("LST_Celsius",
                map (fun x => (x * 0.00341802 + 149.0 - 273.15)%float) px)])
  /\ get_heat_map_real S city w
     = ( match Platform.mean
                 (map (fun x => (x * 0.00341802 + 149.0 - 273.15)%float) px) with
         | Some avg_temp =>
             Ok (JDict
                   [ ("city", JStr (PyStr.title city));
                     ("location", JDict [("lat", lat); ("lon", lon)]);
                     ("avg_temp", JStr (PyFloat.format_f 2 avg_temp +:+ "°C"));
                     ("data_source", JStr "Landsat 9 Satellite") ])
         | None => Raise (HTTPException 404 "Could not calculate temperature.")
         end, w')
  /\ (px = [100%float] ->
      exists avg_temp,
        Platform.mean (map (fun x => (x * 0.00341802 + 149.0 - 273.15)%float) px)
        = Some avg_temp
        /\ PyFloat.format_f 3 avg_temp = "-123.808"
        /\ get_heat_map_real S city w
           = (Ok (JDict
                    [ ("city", JStr (PyStr.title city));
                      ("location", JDict [("lat", lat); ("lon", lon)]);
                      ("avg_temp", JStr "-123.81°C");
                      ("data_source", JStr "Landsat 9 Satellite") ]), w')).
Proof.
  intros HE Hc Hf Hb.
  pose proof (heat_map_on_first_image S cat city w w' lat lon img HE Hc Hf) as Hreply.
  rewrite Hb in Hreply.
  split; [|split].
  - unfold heat_query. cbn [EE.rr_image Platform.eval_image].
    now rewrite (eval_scale_thermal cat _ 30 _ img px Hf Hb).
  - exact Hreply.
  - intros ->. eexists. split; [reflexivity|]. split; [vm_compute; reflexivity|].
    rewrite Hreply. reflexivity.
Qed.

Lemma heat_pipeline_converts_to_celsius_witness :
  get_heat_map_real
    (make_env None service_down
       (Platform.run (landsat_only [scene 1678000000000 10 [100%float]])))
    "Tokyo" w0
  = (Ok (JDict
           [ ("city", JStr (PyStr.title "Tokyo"));
             ("location", JDict [("lat", JNum 35.6762); ("lon", JNum 139.6503)]);
             ("avg_temp", JStr "-123.81°C");
             ("data_source", JStr "Landsat 9 Satellite") ]), w0).
Proof.
  destruct (heat_pipeline_converts_to_celsius
              (make_env None service_down
                 (Platform.run (landsat_only [scene 1678000000000 10 [100%float]])))
              (landsat_only [scene 1678000000000 10 [100%float]])
              "Tokyo" w0 w0 (JNum 35.6762) (JNum 139.6503)
              (scene 1678000000000 10 [100%float]) [100%float])
    as (_ & _ & H100).
  - reflexivity.
  - vm_compute. reflexivity.
  - vm_compute. reflexivity.
  - reflexivity.
  - destruct (H100 eq_refl) as (avg & _ & _ & Hreply). exact Hreply.
Defined.

(** C6 at an input where the code departs from it: on the reference
    platform, when no image passes the filters the endpoint answers with
    HTTP 500 (the platform rejects [select] on the missing image), not
    with 404. *)
Theorem heat_map_without_imagery
    (E : Env) (cat : Platform.catalog) (city : string) (w w' : world) (lat lon : json) :
  ee_getInfo E = Platform.run cat ->
  get_city_coords E city w = (Ok (lat, lon), w') ->
  Platform.eval_collection cat (heat_filtered (area_of_interest lat lon)) = [] ->
  get_heat_map_real E city w
  = (Raise (HTTPException 500
              "An Earth Engine error occurred: Image.select: Parameter 'input' is required."),
     w').
Proof.
  intros HE Hc Hempty.
  rewrite (get_heat_map_real_resolved E city w w' lat lon Hc), HE.
  unfold Platform.run, heat_query, scale_thermal.
  cbn [EE.rr_image EE.rr_geometry EE.rr_scale Platform.eval_image].
  unfold Platform.first_image, heat_collection.
  cbn [Platform.eval_collection]. rewrite Hempty. reflexivity.
Qed.

Lemma heat_map_without_imagery_witness :
  get_heat_map_real
    (make_env None service_down (Platform.run (landsat_only cloudy_scenes)))
    "Tokyo" w0
  = (Raise (HTTPException 500
              "An Earth Engine error occurred: Image.select: Parameter 'input' is required."),
     w0).
Proof.
  refine (heat_map_without_imagery
            (make_env None service_down (Platform.run (landsat_only cloudy_scenes)))
            (landsat_only cloudy_scenes) "Tokyo" w0 w0
            (JNum 35.6762) (JNum 139.6503) eq_refl _ _).
  - vm_compute. reflexivity.
  - vm_compute. reflexivity.
Defined.

(** A scene whose thermal band is 100 everywhere is reported at -123.81°C. *)
Lemma heat_map_of_raw_100 :
  exists payload,
    get_heat_map_real
      (make_env None service_down
         (Platform.run (landsat_only [scene 1678000000000 10 [100%float; 100%float]])))
      "tokyo" w0 = (Ok payload, w0)
    /\ payload_field "avg_temp" payload = Some (JStr "-123.81°C").
Proof.
  eexists. split; vm_compute; reflexivity.
Qed.

(** ** The window shared by the two pipelines *)






(** ** Simulated endpoints *)

(** C9 as stated fails: no two calls of the simulation with the same
    parameters return different payloads. *)
Lemma get_simulation_never_differs : ~ simulation_can_differ.
Proof.
  intros (E & city & intervention & scale & w1 & w2 & H).
  apply H. reflexivity.
Qed.

(** C9, as the code has it: the simulation returns one fixed payload,
    whatever the city, the intervention, the scale, the environment and
    the state of the random generator, and it leaves the world as it was:
    it draws no random value and fetches nothing. *)
Theorem get_simulation_is_constant
    (E E' : Env) (city city' intervention intervention' scale scale' : string)
    (w w' : world) :
  fst (get_simulation E city intervention scale w) = Ok simulation_payload
  /\ fst (get_simulation E city intervention scale w)
     = fst (get_simulation E' city' intervention' scale' w')
  /\ rng_draws (snd (get_simulation E city intervention scale w)) = rng_draws w
  /\ net_log (snd (get_simulation E city intervention scale w)) = net_log w
  /\ snd (get_simulation E city intervention scale w) = w.
Proof.
  unfold get_simulation, ret. cbn [fst snd].
  repeat split; reflexivity.
Qed.

(** C10: the simulation succeeds for every city, intervention and scale,
    fetches nothing and draws nothing; and a city on which the resolver
    fails with an HTTP error makes each of the six other endpoints fail
    with that same error. *)
Theorem get_simulation_never_fails
    (E : Env) (city intervention scale : string) (w : world) :
  get_simulation E city intervention scale w = (Ok simulation_payload, w)
  /\ forall (status_code : Z) (detail : string) (w' : world),
       get_city_coords E city w = (Raise (HTTPException status_code detail), w') ->
       get_green_cover_real E city w = (Raise (HTTPException status_code detail), w')
       /\ get_heat_map_real E city w = (Raise (HTTPException status_code detail), w')
       /\ get_city_overview E city w = (Raise (HTTPException status_code detail), w')
       /\ get_flood_risk E city w = (Raise (HTTPException status_code detail), w')
       /\ get_air_quality E city w = (Raise (HTTPException status_code detail), w')
       /\ get_report_card E city w = (Raise (HTTPException status_code detail), w').
Proof.
  split; [reflexivity|].
  intros status_code detail w' Hc.
  unfold get_green_cover_real, get_heat_map_real, get_city_overview,
    get_flood_risk, get_air_quality, get_report_card, try_except, bind.
  rewrite Hc. repeat split.
Qed.

Lemma get_simulation_never_fails_witness :
  get_simulation (make_env (Some "k") (service_replies 200 (JList [])) (platform_fails "down"))
    "Atlantis" "Parks" "Medium" w0
  = (Ok simulation_payload, w0)
  /\ exists w',
       get_city_overview
         (make_env (Some "k") (service_replies 200 (JList [])) (platform_fails "down"))
         "Atlantis" w0
       = (Raise (HTTPException 404 "City 'Atlantis' not found."), w').
Proof.
  destruct (get_simulation_never_fails
              (make_env (Some "k") (service_replies 200 (JList [])) (platform_fails "down"))
              "Atlantis" "Parks" "Medium" w0) as [Hs Hothers].
  split; [exact Hs|].
  eexists.
  refine (proj1 (proj2 (proj2 (Hothers 404 "City 'Atlantis' not found." _ _)))).
  vm_compute. reflexivity.
Defined.

(** * Further properties of the service *)

(** ** The resolver's fallback *)

(** X1: with a key configured, a city outside the table resolves to the
    [lat] and [lon] of the first hit of the geocoding reply, whatever the
    other hits are, after exactly one call. *)
Theorem get_city_coords_first_hit
    (E : Env) (city_name : string) (w : world) (status_code : Z)
    (fields : list (string * json)) (others : list json) (lat lon : json) :
  known_cities !! PyStr.lower city_name = None ->
  api_key_configured E = true ->
  net E (geocoding_url E city_name)
  = GetResponse status_code (JList (JDict fields :: others)) ->
  error_status status_code = false ->
  assoc_get "lat" fields = Some lat ->
  assoc_get "lon" fields = Some lon ->
  get_city_coords E city_name w
  = (Ok (lat, lon),
     World (net_log w ++ [geocoding_url E city_name]) (rng_draws w)).
Proof.
  intros Hk Hkey Hnet Hs Hlat Hlon.
  rewrite (get_city_coords_fallback E city_name w Hk Hkey), Hnet, Hs.
  cbn [py_truthy]. unfold coords_of_reply. cbn [getitem_0 getitem_key].
  now rewrite Hlat, Hlon.
Qed.

Lemma get_city_coords_first_hit_witness :
  get_city_coords
    (make_env (Some "k")
       (service_replies 200
          (JList [ JDict [("name", JStr "Paris"); ("lat", JNum 48.85); ("lon", JNum 2.35)];
                   JDict [("name", JStr "Paris"); ("lat", JNum 33.66); ("lon", JInt (-95))] ]))
       (platform_fails "down"))
    "Paris" w0
  = (Ok (JNum 48.85, JNum 2.35),
     World ["http://api.openweathermap.org/geo/1.0/direct?q=Paris&limit=1&appid=k"] 0).
Proof.
  refine (get_city_coords_first_hit
            (make_env (Some "k") (service_replies 200 _) (platform_fails "down"))
            "Paris" w0 200
            [("name", JStr "Paris"); ("lat", JNum 48.85); ("lon", JNum 2.35)]
            [JDict [("name", JStr "Paris"); ("lat", JNum 33.66); ("lon", JInt (-95))]]
            (JNum 48.85) (JNum 2.35) _ _ _ _ _ _).
  - vm_compute. reflexivity.
  - reflexivity.
  - reflexivity.
  - reflexivity.
  - reflexivity.
  - reflexivity.
Defined.

(** X2: the resolver never draws from the random generator and fetches at
    most one URL, the geocoding URL of the city; for a city of the table,
    or when no key is configured, it leaves the world untouched. *)
Theorem get_city_coords_fetches_at_most_once (E : Env) (city_name : string) (w : world) :
  rng_draws (snd (get_city_coords E city_name w)) = rng_draws w
  /\ (net_log (snd (get_city_coords E city_name w)) = net_log w
      \/ net_log (snd (get_city_coords E city_name w))
         = (net_log w ++ [geocoding_url E city_name])%list)
  /\ (known_cities !! PyStr.lower city_name <> None \/ api_key_configured E = false ->
      snd (get_city_coords E city_name w) = w).
Proof.
  destruct (known_cities !! PyStr.lower city_name) as [[lat lon]|] eqn:Hk.
  - rewrite (get_city_coords_table E city_name lat lon w Hk). cbn [snd]. auto.
  - destruct (api_key_configured E) eqn:Hkey.
    + rewrite (get_city_coords_fallback E city_name w Hk Hkey). cbn [snd rng_draws net_log].
      repeat split; auto. intros [H | H]; [now elim H | discriminate H].
    + rewrite (get_city_coords_no_key E city_name w Hk Hkey). cbn [snd]. auto.
Qed.

Lemma get_city_coords_http_status
    (E : Env) (city_name : string) (w w' : world) (status_code : Z) (detail : string) :
  get_city_coords E city_name w = (Raise (HTTPException status_code detail), w') ->
  status_code = 404 \/ status_code = 500 \/ status_code = 503.
Proof.
  intros H.
  destruct (known_cities !! PyStr.lower city_name) as [[lat lon]|] eqn:Hk.
  - rewrite (get_city_coords_table E city_name lat lon w Hk) in H. discriminate H.
  - destruct (api_key_configured E) eqn:Hkey.
    + rewrite (get_city_coords_fallback E city_name w Hk Hkey) in H.
      destruct (net E (geocoding_url E city_name)) as [what | st data | st what].
      * inversion H; auto.
      * destruct (error_status st); [inversion H; auto|].
        destruct (py_truthy data); [|inversion H; auto].
        destruct (coords_of_reply data) as [p | e] eqn:Hc; [discriminate H|].
        destruct (coords_of_reply_raises data e Hc) as (cls & msg & ->).
        discriminate H.
      * inversion H; auto.
    + rewrite (get_city_coords_no_key E city_name w Hk Hkey) in H.
      inversion H; auto.
Qed.

(** The resolver raises no [RequestException]: the ones of the call are
    turned into HTTP 503. *)
Lemma get_city_coords_no_request_exception
    (E : Env) (city_name : string) (w w' : world) (what : string) :
  get_city_coords E city_name w <> (Raise (RequestException what), w').
Proof.
  intros H.
  destruct (known_cities !! PyStr.lower city_name) as [[lat lon]|] eqn:Hk.
  - rewrite (get_city_coords_table E city_name lat lon w Hk) in H. discriminate H.
  - destruct (api_key_configured E) eqn:Hkey.
    + rewrite (get_city_coords_fallback E city_name w Hk Hkey) in H.
      destruct (net E (geocoding_url E city_name)) as [m | st data | st m];
        [discriminate H| |discriminate H].
      destruct (error_status st); [discriminate H|].
      destruct (py_truthy data); [|discriminate H].
      destruct (coords_of_reply data) as [p | e] eqn:Hc; [discriminate H|].
      destruct (coords_of_reply_raises data e Hc) as (cls & msg & ->).
      discriminate H.
    + rewrite (get_city_coords_no_key E city_name w Hk Hkey) in H. discriminate H.
Qed.

(** ** Error envelope of the real-data endpoints *)

(** X3: whatever the geocoding service and the platform do, a failure of
    the vegetation endpoint is an [HTTPException] with status 404, 500 or
    503, never a bare Python exception. *)
Theorem get_green_cover_real_errors
    (E : Env) (city : string) (w w' : world) (e : exn) :
  get_green_cover_real E city w = (Raise e, w') ->
  exists status_code detail,
    e = HTTPException status_code detail
    /\ (status_code = 404 \/ status_code = 500 \/ status_code = 503).
Proof.
  unfold get_green_cover_real, try_except, bind, getInfo.
  destruct (get_city_coords E city w) as [[[lat lon] | e0] w1] eqn:Hc.
  - destruct (ee_getInfo E (green_query lat lon)) as [cls msg | stats].
    + cbn. intros H; inversion H; eauto 6.
    + unfold ret. destruct (EE.stats_get stats "NDVI"); cbn; intros H;
        inversion H; eauto 6.
  - destruct e0 as [st d | what | cls msg]; cbn; intros H; inversion H; subst.
    + pose proof (get_city_coords_http_status E city w w' st d Hc). eauto.
    + eauto 6.
    + eauto 6.
Qed.

Lemma get_green_cover_real_errors_witness :
  exists status_code detail,
    HTTPException 500 "An Earth Engine error occurred: quota exceeded"
    = HTTPException status_code detail
    /\ (status_code = 404 \/ status_code = 500 \/ status_code = 503).
Proof.
  refine (get_green_cover_real_errors
            (make_env None service_down (platform_fails "quota exceeded"))
            "London" w0 w0 _ _).
  vm_compute. reflexivity.
Defined.

(** X4: the same envelope holds for the heat endpoint. *)
Theorem get_heat_map_real_errors
    (E : Env) (city : string) (w w' : world) (e : exn) :
  get_heat_map_real E city w = (Raise e, w') ->
  exists status_code detail,
    e = HTTPException status_code detail
    /\ (status_code = 404 \/ status_code = 500 \/ status_code = 503).
Proof.
  destruct (get_city_coords E city w) as [[[lat lon] | e0] w1] eqn:Hc.
  - rewrite (get_heat_map_real_resolved E city w w1 lat lon Hc).
    destruct (ee_getInfo E _) as [cls msg | stats].
    + intros H; inversion H; eauto 6.
    + destruct (EE.stats_get stats "LST_Celsius"); intros H; inversion H; eauto 6.
  - unfold get_heat_map_real, try_except, bind. rewrite Hc.
    destruct e0 as [st d | what | cls msg]; cbn; intros H; inversion H; subst.
    + pose proof (get_city_coords_http_status E city w w' st d Hc). eauto.
    + eauto 6.
    + eauto 6.
Qed.

Lemma get_heat_map_real_errors_witness :
  exists status_code detail,
    HTTPException 404 "Could not calculate temperature."
    = HTTPException status_code detail
    /\ (status_code = 404 \/ status_code = 500 \/ status_code = 503).
Proof.
  refine (get_heat_map_real_errors
            (make_env None service_down (platform_returns "LST_Celsius" None))
            "London" w0 w0 _ _).
  vm_compute. reflexivity.
Defined.

(** X5: a geocoding reply that is not empty but from which [lat] and
    [lon] cannot be read makes the subscripts raise; the two real-data
    endpoints report it as HTTP 500 under the Earth Engine wording, while
    the four simulated endpoints that resolve the city let the bare
    exception through. *)
Theorem malformed_geocoding_reply
    (E : Env) (city : string) (w : world) (status_code : Z) (data : json)
    (cls msg : string) :
  known_cities !! PyStr.lower city = None ->
  api_key_configured E = true ->
  net E (geocoding_url E city) = GetResponse status_code data ->
  error_status status_code = false ->
  py_truthy data = true ->
  coords_of_reply data = Raise (PyException cls msg) ->
  let w' := World (net_log w ++ [geocoding_url E city]) (rng_draws w) in
  let wrapped := HTTPException 500 ("An Earth Engine error occurred: " +:+ msg) in
  get_green_cover_real E city w = (Raise wrapped, w')
  /\ get_heat_map_real E city w = (Raise wrapped, w')
  /\ get_city_overview E city w = (Raise (PyException cls msg), w')
  /\ get_flood_risk E city w = (Raise (PyException cls msg), w')
  /\ get_air_quality E city w = (Raise (PyException cls msg), w')
  /\ get_report_card E city w = (Raise (PyException cls msg), w').
Proof.
  intros Hk Hkey Hnet Hs Ht Hc w' wrapped.
  assert (Hr : get_city_coords E city w = (Raise (PyException cls msg), w')).
  { rewrite (get_city_coords_fallback E city w Hk Hkey), Hnet, Hs, Ht, Hc.
    reflexivity. }
  unfold get_green_cover_real, get_heat_map_real, get_city_overview,
    get_flood_risk, get_air_quality, get_report_card, try_except, bind.
  rewrite Hr. repeat split.
Qed.

Lemma malformed_geocoding_reply_witness :
  get_green_cover_real
    (make_env (Some "k") (service_replies 200 (JList [JDict [("name", JStr "Atlantis")]]))
       (platform_fails "down"))
    "Atlantis" w0
  = (Raise (HTTPException 500 "An Earth Engine error occurred: 'lat'"),
     World ["http://api.openweathermap.org/geo/1.0/direct?q=Atlantis&limit=1&appid=k"] 0)
  /\ get_air_quality
       (make_env (Some "k") (service_replies 200 (JList [JDict [("name", JStr "Atlantis")]]))
          (platform_fails "down"))
       "Atlantis" w0
     = (Raise (PyException "KeyError" "'lat'"),
        World ["http://api.openweathermap.org/geo/1.0/direct?q=Atlantis&limit=1&appid=k"] 0).
Proof.
  pose proof (malformed_geocoding_reply
                (make_env (Some "k")
                   (service_replies 200 (JList [JDict [("name", JStr "Atlantis")]]))
                   (platform_fails "down"))
                "Atlantis" w0 200 (JList [JDict [("name", JStr "Atlantis")]])
                "KeyError" "'lat'") as H.
  destruct H as (Hg & _ & _ & _ & Ha & _).
  - vm_compute. reflexivity.
  - reflexivity.
  - reflexivity.
  - reflexivity.
  - reflexivity.
  - reflexivity.
  - split; [exact Hg | exact Ha].
Defined.

(** ** Casing of the request *)

Lemma to_upper_to_upper (c : ascii) :
  PyStr.to_upper (PyStr.to_upper c) = PyStr.to_upper c.
Proof.
  destruct c as [[] [] [] [] [] [] [] []]; reflexivity.
Qed.

Lemma cased_to_upper (c : ascii) :
  PyStr.is_upper (PyStr.to_upper c) || PyStr.is_lower (PyStr.to_upper c)
  = PyStr.is_upper c || PyStr.is_lower c.
Proof.
  destruct c as [[] [] [] [] [] [] [] []]; reflexivity.
Qed.

Lemma title_from_recase (previous_is_cased : bool) (mask : list bool) (s : string) :
  PyStr.title_from previous_is_cased (PyStr.recase mask s)
  = PyStr.title_from previous_is_cased s.
Proof.
  revert previous_is_cased mask.
  induction s as [|c r IH]; intros p [|[] m]; simpl; trivial.
  - rewrite cased_to_upper, IH.
    destruct p; [now rewrite to_lower_to_upper | now rewrite to_upper_to_upper].
  - now rewrite IH.
Qed.

(** X6: for a city of the static table the whole reply of every endpoint
    that resolves the city is the same for all casings of the name: the
    coordinates, the title-cased city field and the effect on the world
    do not depend on how the request spells the name. *)
Theorem known_city_reply_ignores_case
    (E : Env) (city : string) (coords : float * float) (mask : list bool) (w : world) :
  known_cities !! PyStr.lower city = Some coords ->
  get_green_cover_real E (PyStr.recase mask city) w = get_green_cover_real E city w
  /\ get_heat_map_real E (PyStr.recase mask city) w = get_heat_map_real E city w
  /\ get_city_overview E (PyStr.recase mask city) w = get_city_overview E city w
  /\ get_flood_risk E (PyStr.recase mask city) w = get_flood_risk E city w
  /\ get_air_quality E (PyStr.recase mask city) w = get_air_quality E city w
  /\ get_report_card E (PyStr.recase mask city) w = get_report_card E city w.
Proof.
  destruct coords as [lat lon]. intros Hk.
  assert (Hk' : known_cities !! PyStr.lower (PyStr.recase mask city) = Some (lat, lon))
    by now rewrite lower_recase.
  pose proof (get_city_coords_table E city lat lon w Hk) as Hc.
  pose proof (get_city_coords_table E (PyStr.recase mask city) lat lon w Hk') as Hc'.
  unfold get_green_cover_real, get_heat_map_real, get_city_overview,
    get_flood_risk, get_air_quality, get_report_card, try_except, bind.
  rewrite Hc, Hc'. unfold PyStr.title. rewrite title_from_recase.
  repeat split.
Qed.

Lemma known_city_reply_ignores_case_witness :
  get_heat_map_real
    (make_env None service_down (Platform.run (landsat_only sample_scenes)))
    (PyStr.recase [true; false; false; true] "new york") w0
  = get_heat_map_real
      (make_env None service_down (Platform.run (landsat_only sample_scenes)))
      "new york" w0.
Proof.
  refine (proj1 (proj2 (known_city_reply_ignores_case
                          (make_env None service_down
                             (Platform.run (landsat_only sample_scenes)))
                          "new york" (40.7128%float, (-74.0060)%float)
                          [true; false; false; true] w0 _))).
  vm_compute. reflexivity.
Defined.

(** ** Ranges of the simulated values *)

Lemma randint_in_range (a b x : Z) :
  a <= b -> a <= a + x mod (b - a + 1) <= b.
Proof.
  intros Hab. pose proof (Z.mod_pos_bound x (b - a + 1)). lia.
Qed.

Lemma random_randint_run (E : Env) (a b : Z) (w : world) :
  random_randint E a b w
  = (Ok (a + rand_bits E (rng_draws w) mod (b - a + 1)),
     World (net_log w) (N.succ (rng_draws w))).
Proof. reflexivity. Qed.

Lemma random_choice_run (E : Env) (seq : list string) (w : world) :
  random_choice E seq w
  = (Ok (nth (Z.to_nat (rand_bits E (rng_draws w) mod Z.of_nat (length seq))) seq ""),
     World (net_log w) (N.succ (rng_draws w))).
Proof. reflexivity. Qed.

Lemma random_choice_member (seq : list string) (x : Z) :
  seq <> [] ->
  In (nth (Z.to_nat (x mod Z.of_nat (length seq))) seq "") seq.
Proof.
  intros Hne. apply nth_In.
  assert (0 < Z.of_nat (length seq)) by (destruct seq; [congruence | simpl; lia]).
  pose proof (Z.mod_pos_bound x (Z.of_nat (length seq))). lia.
Qed.

(** X7: on a resolved city the flood-risk reply carries a score between
    10 and 40, between 1 and 10 high-risk zones and an elevation between
    40 and 60, echoes the resolver's coordinates, and takes exactly three
    draws from the generator. *)
Theorem get_flood_risk_ranges
    (E : Env) (city : string) (w w' : world) (lat lon : json) :
  get_city_coords E city w = (Ok (lat, lon), w') ->
  exists risk_score high_risk_zones avg_elevation : Z,
    10 <= risk_score <= 40
    /\ 1 <= high_risk_zones <= 10
    /\ 40 <= avg_elevation <= 60
    /\ get_flood_risk E city w
       = (Ok (JDict
                [ ("city", JStr (PyStr.title city));
                  ("location", JDict [("lat", lat); ("lon", lon)]);
                  ("risk_score", JStr (PyFloat.str_int risk_score +:+ "/100"));
                  ("high_risk_zones", JInt high_risk_zones);
                  ("avg_elevation", JStr (PyFloat.str_int avg_elevation +:+ "m")) ]),
          World (net_log w') (N.succ (N.succ (N.succ (rng_draws w'))))).
Proof.
  intros Hc.
  exists (10 + rand_bits E (rng_draws w') mod (40 - 10 + 1)),
         (1 + rand_bits E (N.succ (rng_draws w')) mod (10 - 1 + 1)),
         (40 + rand_bits E (N.succ (N.succ (rng_draws w'))) mod (60 - 40 + 1)).
  split; [apply randint_in_range; lia|].
  split; [apply randint_in_range; lia|].
  split; [apply randint_in_range; lia|].
  unfold get_flood_risk, bind. rewrite Hc.
  rewrite !random_randint_run. reflexivity.
Qed.

Lemma get_flood_risk_ranges_witness :
  exists risk_score high_risk_zones avg_elevation : Z,
    10 <= risk_score <= 40
    /\ 1 <= high_risk_zones <= 10
    /\ 40 <= avg_elevation <= 60
    /\ get_flood_risk (make_env None service_down (platform_fails "down")) "mumbai" w0
       = (Ok (JDict
                [ ("city", JStr (PyStr.title "mumbai"));
                  ("location", JDict [("lat", JNum 19.0760); ("lon", JNum 72.8777)]);
                  ("risk_score", JStr (PyFloat.str_int risk_score +:+ "/100"));
                  ("high_risk_zones", JInt high_risk_zones);
                  ("avg_elevation", JStr (PyFloat.str_int avg_elevation +:+ "m")) ]),
          World (net_log w0) (N.succ (N.succ (N.succ (rng_draws w0))))).
Proof.
  refine (get_flood_risk_ranges (make_env None service_down (platform_fails "down"))
            "mumbai" w0 w0 (JNum 19.0760) (JNum 72.8777) _).
  vm_compute. reflexivity.
Defined.

(** X8: on a resolved city the air-quality reply carries an AQI between
    30 and 150, between 0 and 5 unhealthy sensors and one of the three
    listed pollutants, and takes exactly three draws. *)
Theorem get_air_quality_ranges
    (E : Env) (city : string) (w w' : world) (lat lon : json) :
  get_city_coords E city w = (Ok (lat, lon), w') ->
  exists (avg_aqi unhealthy_sensors : Z) (main_pollutant : string),
    30 <= avg_aqi <= 150
    /\ 0 <= unhealthy_sensors <= 5
    /\ In main_pollutant ["PM2.5"; "O3"; "NO2"]
    /\ get_air_quality E city w
       = (Ok (JDict
                [ ("city", JStr (PyStr.title city));
                  ("location", JDict [("lat", lat); ("lon", lon)]);
                  ("avg_aqi", JInt avg_aqi);
                  ("unhealthy_sensors", JInt unhealthy_sensors);
                  ("main_pollutant", JStr main_pollutant) ]),
          World (net_log w') (N.succ (N.succ (N.succ (rng_draws w'))))).
Proof.
  intros Hc.
  exists (30 + rand_bits E (rng_draws w') mod (150 - 30 + 1)),
         (0 + rand_bits E (N.succ (rng_draws w')) mod (5 - 0 + 1)),
         (nth (Z.to_nat (rand_bits E (N.succ (N.succ (rng_draws w')))
                         mod Z.of_nat (length ["PM2.5"; "O3"; "NO2"])))
              ["PM2.5"; "O3"; "NO2"] "").
  split; [apply randint_in_range; lia|].
  split; [apply randint_in_range; lia|].
  split; [apply random_choice_member; discriminate|].
  unfold get_air_quality, bind. rewrite Hc.
  rewrite !random_randint_run, random_choice_run. reflexivity.
Qed.

Lemma get_air_quality_ranges_witness :
  exists (avg_aqi unhealthy_sensors : Z) (main_pollutant : string),
    30 <= avg_aqi <= 150
    /\ 0 <= unhealthy_sensors <= 5
    /\ In main_pollutant ["PM2.5"; "O3"; "NO2"]
    /\ get_air_quality (make_env None service_down (platform_fails "down")) "London" w0
       = (Ok (JDict
                [ ("city", JStr (PyStr.title "London"));
                  ("location", JDict [("lat", JNum 51.5072); ("lon", JNum (-0.1276))]);
                  ("avg_aqi", JInt avg_aqi);
                  ("unhealthy_sensors", JInt unhealthy_sensors);
                  ("main_pollutant", JStr main_pollutant) ]),
          World (net_log w0) (N.succ (N.succ (N.succ (rng_draws w0))))).
Proof.
  refine (get_air_quality_ranges (make_env None service_down (platform_fails "down"))
            "London" w0 w0 (JNum 51.5072) (JNum (-0.1276)) _).
  vm_compute. reflexivity.
Defined.

(** X9: on a resolved city the report card carries an overall score
    between 60 and 85 and the two fixed grades, and takes one draw. *)
Theorem get_report_card_ranges
    (E : Env) (city : string) (w w' : world) (lat lon : json) :
  get_city_coords E city w = (Ok (lat, lon), w') ->
  exists overall_score : Z,
    60 <= overall_score <= 85
    /\ get_report_card E city w
       = (Ok (JDict
                [ ("city", JStr (PyStr.title city));
                  ("location", JDict [("lat", lat); ("lon", lon)]);
                  ("overall_score", JInt overall_score);
                  ("summary", JStr "This is a simulated summary.");
                  ("grades",
                   JDict [ ("Air Quality", JDict [("grade", JStr "C+")]);
                           ("Green Cover", JDict [("grade", JStr "A-")]) ]) ]),
          World (net_log w') (N.succ (rng_draws w'))).
Proof.
  intros Hc.
  exists (60 + rand_bits E (rng_draws w') mod (85 - 60 + 1)).
  split; [apply randint_in_range; lia|].
  unfold get_report_card, bind. rewrite Hc.
  rewrite !random_randint_run. reflexivity.
Qed.

Lemma get_report_card_ranges_witness :
  exists overall_score : Z,
    60 <= overall_score <= 85
    /\ get_report_card (make_env None service_down (platform_fails "down")) "tokyo" w0
       = (Ok (JDict
                [ ("city", JStr (PyStr.title "tokyo"));
                  ("location", JDict [("lat", JNum 35.6762); ("lon", JNum 139.6503)]);
                  ("overall_score", JInt overall_score);
                  ("summary", JStr "This is a simulated summary.");
                  ("grades",
                   JDict [ ("Air Quality", JDict [("grade", JStr "C+")]);
                           ("Green Cover", JDict [("grade", JStr "A-")]) ]) ]),
          World (net_log w0) (N.succ (rng_draws w0))).
Proof.
  refine (get_report_card_ranges (make_env None service_down (platform_fails "down"))
            "tokyo" w0 w0 (JNum 35.6762) (JNum 139.6503) _).
  vm_compute. reflexivity.
Defined.

(** X10: on a resolved city the overview carries a green cover between
    40 and 65, a flood risk between 5 and 25, an AQI between 40 and 90 and
    one of the two risk levels; its temperature is [25 + 7 * u] for the
    generator's float [u], printed with one decimal; it takes five draws
    and does not report the coordinates. *)
Theorem get_city_overview_ranges
    (E : Env) (city : string) (w w' : world) (coords : json * json) :
  get_city_coords E city w = (Ok coords, w') ->
  exists (green_cover flood_risk aqi : Z) (risk_level : string),
    40 <= green_cover <= 65
    /\ 5 <= flood_risk <= 25
    /\ 40 <= aqi <= 90
    /\ In risk_level ["Low Risk"; "Medium Risk"]
    /\ get_city_overview E city w
       = (Ok (JDict
                [ ("city", JStr (PyStr.title city));
                  ("country", JStr "Global");
                  ("temperature",
                   JStr (PyFloat.format_f 1
                           (25.0 + (32.0 - 25.0) * rand_float E (rng_draws w'))
                         +:+ "°C"));
                  ("green_cover", JStr (PyFloat.str_int green_cover +:+ "%"));
                  ("flood_risk", JStr (PyFloat.str_int flood_risk +:+ "/100"));
                  ("aqi", JInt aqi);
                  ("risk_level", JStr risk_level) ]),
          World (net_log w')
            (N.succ (N.succ (N.succ (N.succ (N.succ (rng_draws w'))))))).
Proof.
  intros Hc.
  exists (40 + rand_bits E (N.succ (rng_draws w')) mod (65 - 40 + 1)),
         (5 + rand_bits E (N.succ (N.succ (rng_draws w'))) mod (25 - 5 + 1)),
         (40 + rand_bits E (N.succ (N.succ (N.succ (rng_draws w')))) mod (90 - 40 + 1)),
         (nth (Z.to_nat (rand_bits E (N.succ (N.succ (N.succ (N.succ (rng_draws w')))))
                         mod Z.of_nat (length ["Low Risk"; "Medium Risk"])))
              ["Low Risk"; "Medium Risk"] "").
  split; [apply randint_in_range; lia|].
  split; [apply randint_in_range; lia|].
  split; [apply randint_in_range; lia|].
  split; [apply random_choice_member; discriminate|].
  unfold get_city_overview, bind. rewrite Hc.
  unfold random_uniform, random_random, bind, ret. cbn [rng_draws net_log].
  rewrite !random_randint_run. cbn [rng_draws net_log].
  rewrite random_choice_run. reflexivity.
Qed.

(** * Properties of the dashboard *)

Lemma overview_ranges_example :
  get_city_overview (make_env None service_down (platform_fails "down")) "london" w0
  = (Ok (JDict
           [ ("city", JStr "London"); ("country", JStr "Global");
             ("temperature", JStr "28.5°C"); ("green_cover", JStr "41%");
             ("flood_risk", JStr "7/100"); ("aqi", JInt 43);
             ("risk_level", JStr "Low Risk") ]),
     World [] 5).
Proof. vm_compute. reflexivity. Qed.

Lemma get_city_overview_ranges_witness :
  exists (green_cover flood_risk aqi : Z) (risk_level : string),
    40 <= green_cover <= 65
    /\ 5 <= flood_risk <= 25
    /\ 40 <= aqi <= 90
    /\ In risk_level ["Low Risk"; "Medium Risk"]
    /\ get_city_overview (make_env None service_down (platform_fails "down")) "london" w0
       = (Ok (JDict
                [ ("city", JStr (PyStr.title "london"));
                  ("country", JStr "Global");
                  ("temperature",
                   JStr (PyFloat.format_f 1
                           (25.0 + (32.0 - 25.0)
                                   * rand_float (make_env None service_down
                                                   (platform_fails "down")) (rng_draws w0))
                         +:+ "°C"));
                  ("green_cover", JStr (PyFloat.str_int green_cover +:+ "%"));
                  ("flood_risk", JStr (PyFloat.str_int flood_risk +:+ "/100"));
                  ("aqi", JInt aqi);
                  ("risk_level", JStr risk_level) ]),
          World (net_log w0)
            (N.succ (N.succ (N.succ (N.succ (N.succ (rng_draws w0))))))).
Proof.
  refine (get_city_overview_ranges (make_env None service_down (platform_fails "down"))
            "london" w0 w0 (JNum 51.5072, JNum (-0.1276)) _).
  vm_compute. reflexivity.
Defined.

(** ** Fetching a reply *)

Lemma http_error_msg_error_status (r : Dashboard.response) :
  400 <= Dashboard.status_code r < 600 ->
  Dashboard.http_error_msg r
  = Some (PyFloat.str_int (Dashboard.status_code r)
          +:+ (if Z.ltb (Dashboard.status_code r) 500
               then " Client Error: " else " Server Error: ")
          +:+ Dashboard.reason r +:+ " for url: " +:+ Dashboard.url r).
Proof.
  intros [Hlo Hhi]. unfold Dashboard.http_error_msg.
  destruct (Z.ltb (Dashboard.status_code r) 500) eqn:H5.
  - assert (H4 : Z.leb 400 (Dashboard.status_code r) = true) by (apply Z.leb_le; lia).
    now rewrite H4.
  - assert (H4 : Z.leb 500 (Dashboard.status_code r) = true)
      by (apply Z.leb_le; apply Z.ltb_ge in H5; lia).
    assert (H6 : Z.ltb (Dashboard.status_code r) 600 = true) by (apply Z.ltb_lt; lia).
    now rewrite andb_false_r, H4, H6.
Qed.

Lemma http_error_msg_ok (r : Dashboard.response) :
  Dashboard.status_code r < 400 -> Dashboard.http_error_msg r = None.
Proof.
  intros H. unfold Dashboard.http_error_msg.
  assert (H4 : Z.leb 400 (Dashboard.status_code r) = false) by (apply Z.leb_gt; lia).
  assert (H5 : Z.leb 500 (Dashboard.status_code r) = false) by (apply Z.leb_gt; lia).
  now rewrite H4, H5.
Qed.

(** An error status ends in the banner made of the [HTTPError] message. *)
Lemma get_api_data_http_error
    (E : Dashboard.Env) (endpoint : string) (u : Dashboard.ui)
    (r : Dashboard.response) (msg : string) :
  Dashboard.backend E (Dashboard.API_BASE_URL +:+ "/" +:+ endpoint)
  = Dashboard.GetReplies r ->
  Dashboard.http_error_msg r = Some msg ->
  Dashboard.get_api_data E endpoint u
  = (Dashboard.Done JNull,
     Dashboard.UI
       (Dashboard.widgets u ++ [Dashboard.st_error ("API Error: " +:+ msg)])
       (Dashboard.requested u ++ [Dashboard.API_BASE_URL +:+ "/" +:+ endpoint])).
Proof.
  intros Hb Hm.
  unfold Dashboard.get_api_data, Dashboard.try_except, Dashboard.bind,
    Dashboard.requests_get, Dashboard.raise_for_status, Dashboard.response_truthy.
  rewrite Hb, Hm. cbn. rewrite Hm. reflexivity.
Qed.

(** X11: when the service answers with a 4xx or 5xx status, the dashboard
    shows the message of the [HTTPError] ("<status> Client Error: <reason>
    for url: <url>", or "Server Error") and returns [None]; the body of the
    reply, hence the service's [detail], is not looked at, because an
    error response is falsy. *)
Theorem get_api_data_error_status
    (E : Dashboard.Env) (endpoint : string) (u : Dashboard.ui) (r : Dashboard.response) :
  Dashboard.backend E (Dashboard.API_BASE_URL +:+ "/" +:+ endpoint)
  = Dashboard.GetReplies r ->
  400 <= Dashboard.status_code r < 600 ->
  Dashboard.get_api_data E endpoint u
  = (Dashboard.Done JNull,
     Dashboard.UI
       (Dashboard.widgets u ++
        [Dashboard.st_error
           ("API Error: " +:+ PyFloat.str_int (Dashboard.status_code r)
            +:+ (if Z.ltb (Dashboard.status_code r) 500
                 then " Client Error: " else " Server Error: ")
            +:+ Dashboard.reason r +:+ " for url: " +:+ Dashboard.url r)])
       (Dashboard.requested u ++ [Dashboard.API_BASE_URL +:+ "/" +:+ endpoint])).
Proof.
  intros Hb Hs.
  pose proof (http_error_msg_error_status r Hs) as Hm.
  now rewrite (get_api_data_http_error E endpoint u r _ Hb Hm).
Qed.

Lemma get_api_data_error_status_witness :
  Dashboard.get_api_data
    (Dashboard.make_env
       (Dashboard.always_replies 404 "Not Found"
          (inr (JDict [("detail", JStr "City 'Atlantis' not found.")]))))
    "city/Atlantis/heatmap" Dashboard.u0
  = (Dashboard.Done JNull,
     Dashboard.UI
       [Dashboard.st_error
          "API Error: 404 Client Error: Not Found for url: http://127.0.0.1:8000/city/Atlantis/heatmap"]
       ["http://127.0.0.1:8000/city/Atlantis/heatmap"]).
Proof.
  refine (get_api_data_error_status
            (Dashboard.make_env
               (Dashboard.always_replies 404 "Not Found"
                  (inr (JDict [("detail", JStr "City 'Atlantis' not found.")]))))
            "city/Atlantis/heatmap" Dashboard.u0
            (Dashboard.Response 404 "Not Found"
               "http://127.0.0.1:8000/city/Atlantis/heatmap"
               (inr (JDict [("detail", JStr "City 'Atlantis' not found.")])))
            eq_refl _).
  cbn. lia.
Defined.

(** X12: whatever the service does, fetching a reply issues exactly one
    request and shows at most one widget, an error banner; when it shows
    the banner it returns [None]; and it lets an exception through only
    when [requests.get] itself raised an exception that carries a truthy
    response. *)
Theorem get_api_data_one_request
    (E : Dashboard.Env) (endpoint : string) (u : Dashboard.ui) :
  Dashboard.requested (snd (Dashboard.get_api_data E endpoint u))
  = (Dashboard.requested u ++ [Dashboard.API_BASE_URL +:+ "/" +:+ endpoint])%list
  /\ (Dashboard.widgets (snd (Dashboard.get_api_data E endpoint u)) = Dashboard.widgets u
      \/ exists text,
           Dashboard.widgets (snd (Dashboard.get_api_data E endpoint u))
           = (Dashboard.widgets u ++ [Dashboard.st_error text])%list
           /\ fst (Dashboard.get_api_data E endpoint u) = Dashboard.Done JNull)
  /\ (forall e,
        fst (Dashboard.get_api_data E endpoint u) = Dashboard.Fail e ->
        exists msg r,
          Dashboard.backend E (Dashboard.API_BASE_URL +:+ "/" +:+ endpoint)
          = Dashboard.GetFails msg (Some r)
          /\ Dashboard.response_truthy r = true).
Proof.
  unfold Dashboard.get_api_data, Dashboard.try_except, Dashboard.bind,
    Dashboard.requests_get, Dashboard.raise_for_status.
  destruct (Dashboard.backend E (Dashboard.API_BASE_URL +:+ "/" +:+ endpoint))
    as [msg | msg [r|] | r] eqn:Hb.
  - cbn. split; [reflexivity|]. split; [right; eauto|]. intros e H; discriminate H.
  - cbn. destruct (Dashboard.response_truthy r) eqn:Ht.
    + unfold Dashboard.response_json.
      destruct (Dashboard.body r) as [m | v]; cbn.
      * split; [reflexivity|]. split; [left; reflexivity|]. intros e _; eauto.
      * destruct v; cbn;
          (split; [reflexivity|]; split;
           [first [right; eexists; split; reflexivity | left; reflexivity]
           | intros e H; first [discriminate H | eauto]]).
    + cbn. split; [reflexivity|]. split; [right; eauto|]. intros e H; discriminate H.
  - cbn. split; [reflexivity|]. split; [right; eauto|]. intros e H; discriminate H.
  - unfold Dashboard.response_truthy.
    destruct (Dashboard.http_error_msg r) as [m|] eqn:Hm; cbn.
    + rewrite Hm. cbn. split; [reflexivity|]. split; [right; eauto|].
      intros e H; discriminate H.
    + unfold Dashboard.response_json.
      destruct (Dashboard.body r) as [m | v]; cbn.
      * split; [reflexivity|]. split; [right; eauto|]. intros e H; discriminate H.
      * split; [reflexivity|]. split; [left; reflexivity|]. intros e H; discriminate H.
Qed.

(** The reply goes through untouched when the status is not an error. *)
Lemma get_api_data_success
    (E : Dashboard.Env) (endpoint : string) (u : Dashboard.ui)
    (r : Dashboard.response) (v : json) :
  Dashboard.backend E (Dashboard.API_BASE_URL +:+ "/" +:+ endpoint)
  = Dashboard.GetReplies r ->
  Dashboard.http_error_msg r = None ->
  Dashboard.body r = inr v ->
  Dashboard.get_api_data E endpoint u
  = (Dashboard.Done v,
     Dashboard.UI (Dashboard.widgets u)
       (Dashboard.requested u ++ [Dashboard.API_BASE_URL +:+ "/" +:+ endpoint])).
Proof.
  intros Hb Hm Hv.
  unfold Dashboard.get_api_data, Dashboard.try_except, Dashboard.bind,
    Dashboard.requests_get, Dashboard.raise_for_status, Dashboard.response_json.
  rewrite Hb, Hm. cbn. rewrite Hv. reflexivity.
Qed.

(** ** Rendering a reply

    The analysis page on a reply that has a city, a location with valid
    coordinates, and on which the page's metrics succeed. *)
Lemma render_analysis_page_ok
    (E : Dashboard.Env) (session : gmap string string)
    (page_title endpoint word : string) (render_metrics_func : json -> Dashboard.Run unit)
    (u : Dashboard.ui) (r : Dashboard.response)
    (data name loc lat lon : json) (shown : list Dashboard.widget) :
  nth_error (Dashboard.split_space page_title) 1 = Some word ->
  Dashboard.backend E
    (Dashboard.API_BASE_URL +:+ "/" +:+
     ("city/" +:+ Dashboard.session_city session +:+ "/" +:+ endpoint))
  = Dashboard.GetReplies r ->
  Dashboard.http_error_msg r = None ->
  Dashboard.body r = inr data ->
  py_truthy data = true ->
  getitem_key data "city" = Ok name ->
  getitem_key data "location" = Ok loc ->
  getitem_key loc "lat" = Ok lat ->
  getitem_key loc "lon" = Ok lon ->
  Dashboard.valid_coordinate E lat = true ->
  Dashboard.valid_coordinate E lon = true ->
  (forall v, render_metrics_func data v
             = (Dashboard.Done tt,
                Dashboard.UI (Dashboard.widgets v ++ shown) (Dashboard.requested v))) ->
  Dashboard.render_analysis_page E session page_title endpoint render_metrics_func u
  = (Dashboard.Done tt,
     Dashboard.UI
       (Dashboard.widgets u ++
        Dashboard.st_header page_title
        :: Dashboard.st_spinner
             ("Analyzing " +:+ word +:+ " for " +:+ Dashboard.session_city session
              +:+ "... This involves processing satellite data and may take a moment.")
        :: Dashboard.st_columns [1; 2]
        :: Dashboard.in_column 0
             (Dashboard.st_markdown ("### " +:+ Dashboard.py_str E name +:+ " Analysis"))
        :: map (Dashboard.in_column 0) shown ++
        [Dashboard.in_column 1
           (Dashboard.st_folium
              (Dashboard.Map (lat, lon) 12 "CartoDB positron"
                 [Dashboard.Marker (lat, lon)
                    (Dashboard.py_str E name +:+ " Center") "City Center"])
              700 500)])
       (Dashboard.requested u ++
        [Dashboard.API_BASE_URL +:+ "/" +:+
         ("city/" +:+ Dashboard.session_city session +:+ "/" +:+ endpoint)])).
Proof.
  intros Hw Hb Hm Hbody Ht Hcity Hloc Hlat Hlon Hvlat Hvlon Hmetrics.
  unfold Dashboard.render_analysis_page.
  unfold Dashboard.bind at 1. cbn [Dashboard.emit].
  rewrite Hw.
  unfold Dashboard.bind at 1. cbn [Dashboard.ret].
  unfold Dashboard.bind at 1. cbn [Dashboard.emit].
  unfold Dashboard.bind at 1.
  rewrite (get_api_data_success E _ _ r data Hb Hm Hbody).
  rewrite Ht. cbn [negb].
  unfold Dashboard.within_column, Dashboard.bind, Dashboard.subscript,
    Dashboard.create_map, Dashboard.validate_location, Dashboard.emit, Dashboard.ret.
  cbn [Dashboard.widgets Dashboard.requested].
  rewrite Hcity, Hloc. unfold Dashboard.ret. rewrite Hmetrics.
  unfold Dashboard.bind, Dashboard.subscript. rewrite Hlat, Hlon.
  unfold Dashboard.ret. rewrite Hvlat, Hvlon.
  cbn [andb Dashboard.widgets Dashboard.requested Dashboard.location
       Dashboard.zoom_start Dashboard.tiles Dashboard.markers app map].
  f_equal. f_equal.
  rewrite <- !app_assoc. reflexivity.
Qed.

Lemma heat_payload_shape (E : Env) (city : string) (w w' : world) (payload : json) :
  get_heat_map_real E city w = (Ok payload, w') ->
  exists (lat lon : json) (avg_temp : float),
    get_city_coords E city w = (Ok (lat, lon), w')
    /\ payload
       = JDict [ ("city", JStr (PyStr.title city));
                 ("location", JDict [("lat", lat); ("lon", lon)]);
                 ("avg_temp", JStr (PyFloat.format_f 2 avg_temp +:+ "°C"));
                 ("data_source", JStr "Landsat 9 Satellite") ].
Proof.
  destruct (get_city_coords E city w) as [[[lat lon] | e] w1] eqn:Hc.
  - rewrite (get_heat_map_real_resolved E city w w1 lat lon Hc).
    destruct (ee_getInfo E _) as [cls msg | stats]; [discriminate|].
    destruct (EE.stats_get stats "LST_Celsius") as [avg|]; [|discriminate].
    intros H; inversion H; subst. now exists lat, lon, avg.
  - unfold get_heat_map_real, try_except, bind. rewrite Hc.
    destruct e; discriminate.
Qed.

Lemma green_payload_shape (E : Env) (city : string) (w w' : world) (payload : json) :
  get_green_cover_real E city w = (Ok payload, w') ->
  exists (lat lon : json) (avg_ndvi : float),
    get_city_coords E city w = (Ok (lat, lon), w')
    /\ payload
       = JDict [ ("city", JStr (PyStr.title city));
                 ("location", JDict [("lat", lat); ("lon", lon)]);
                 ("avg_coverage",
                  JStr (PyFloat.format_f 2 ((avg_ndvi + 1) * 50) +:+ "%"));
                 ("avg_ndvi", JStr (PyFloat.format_f 4 avg_ndvi));
                 ("data_source", JStr "Sentinel-2 Satellite") ].
Proof.
  unfold get_green_cover_real, try_except, bind, getInfo.
  destruct (get_city_coords E city w) as [[[lat lon] | e] w1] eqn:Hc.
  - destruct (ee_getInfo E (green_query lat lon)) as [cls msg | stats];
      [discriminate|].
    unfold ret. destruct (EE.stats_get stats "NDVI") as [avg|]; [|discriminate].
    intros H; inversion H; subst. now exists lat, lon, avg.
  - destruct e; discriminate.
Qed.

Lemma metrics_heat_map_shows
    (E : Dashboard.Env) (data : json) (avg_temp data_source : string) (u : Dashboard.ui) :
  getitem_key data "avg_temp" = Ok (JStr avg_temp) ->
  getitem_key data "data_source" = Ok (JStr data_source) ->
  Dashboard.metrics_heat_map E data u
  = (Dashboard.Done tt,
     Dashboard.UI
       (Dashboard.widgets u ++
        [ Dashboard.st_metric "🌡️ Avg. Surface Temperature" (JStr avg_temp);
          Dashboard.st_info ("🛰️ Data Source: " +:+ data_source) ])
       (Dashboard.requested u)).
Proof.
  intros H1 H2.
  unfold Dashboard.metrics_heat_map, Dashboard.bind, Dashboard.subscript.
  rewrite H1. cbn. rewrite H2. dash_finish.
Qed.

Lemma metrics_green_cover_shows
    (E : Dashboard.Env) (data : json) (avg_coverage avg_ndvi data_source : string)
    (u : Dashboard.ui) :
  getitem_key data "avg_coverage" = Ok (JStr avg_coverage) ->
  getitem_key data "avg_ndvi" = Ok (JStr avg_ndvi) ->
  getitem_key data "data_source" = Ok (JStr data_source) ->
  Dashboard.metrics_green_cover E data u
  = (Dashboard.Done tt,
     Dashboard.UI
       (Dashboard.widgets u ++
        [ Dashboard.st_metric "🌳 Average Green Cover" (JStr avg_coverage);
          Dashboard.st_metric "Average NDVI" (JStr avg_ndvi);
          Dashboard.st_info ("🛰️ Data Source: " +:+ data_source) ])
       (Dashboard.requested u)).
Proof.
  intros H1 H2 H3.
  unfold Dashboard.metrics_green_cover, Dashboard.bind, Dashboard.subscript.
  rewrite H1. cbn. rewrite H2. cbn. rewrite H3. dash_finish.
Qed.

(** X13: the heat page renders every successful reply of the heat
    endpoint: when the service answers the page's request with the payload
    of [get_heat_map_real] for the session's city and the coordinates are
    valid for the map, the page raises nothing and shows the header, the
    spinner, the city title, the temperature, the data source and a map
    centred and pinned on the coordinates. *)
Theorem heat_page_renders
    (S : Env) (E : Dashboard.Env) (session : gmap string string)
    (w w' : world) (payload lat lon : json) (u : Dashboard.ui) (r : Dashboard.response) :
  get_heat_map_real S (Dashboard.session_city session) w = (Ok payload, w') ->
  get_city_coords S (Dashboard.session_city session) w = (Ok (lat, lon), w') ->
  Dashboard.valid_coordinate E lat = true ->
  Dashboard.valid_coordinate E lon = true ->
  Dashboard.backend E
    (Dashboard.API_BASE_URL +:+ "/" +:+
     ("city/" +:+ Dashboard.session_city session +:+ "/" +:+ "heatmap"))
  = Dashboard.GetReplies r ->
  Dashboard.http_error_msg r = None ->
  Dashboard.body r = inr payload ->
  exists avg_temp : float,
    Dashboard.render_analysis_page E session "🔥 Urban Heat Map" "heatmap"
      (Dashboard.metrics_heat_map E) u
    = (Dashboard.Done tt,
       Dashboard.UI
         (Dashboard.widgets u ++
          [ Dashboard.st_header "🔥 Urban Heat Map";
            Dashboard.st_spinner
              ("Analyzing Urban for " +:+ Dashboard.session_city session
               +:+ "... This involves processing satellite data and may take a moment.");
            Dashboard.st_columns [1; 2];
            Dashboard.in_column 0
              (Dashboard.st_markdown
                 ("### " +:+ PyStr.title (Dashboard.session_city session) +:+ " Analysis"));
            Dashboard.in_column 0
              (Dashboard.st_metric "🌡️ Avg. Surface Temperature"
                 (JStr (PyFloat.format_f 2 avg_temp +:+ "°C")));
            Dashboard.in_column 0
              (Dashboard.st_info "🛰️ Data Source: Landsat 9 Satellite");
            Dashboard.in_column 1
              (Dashboard.st_folium
                 (Dashboard.Map (lat, lon) 12 "CartoDB positron"
                    [Dashboard.Marker (lat, lon)
                       (PyStr.title (Dashboard.session_city session) +:+ " Center")
                       "City Center"])
                 700 500) ])
         (Dashboard.requested u ++
          [Dashboard.API_BASE_URL +:+ "/" +:+
           ("city/" +:+ Dashboard.session_city session +:+ "/" +:+ "heatmap")])).
Proof.
  intros Hp Hc Hvlat Hvlon Hb Hm Hbody.
  destruct (heat_payload_shape S _ w w' payload Hp) as (lat0 & lon0 & avg & Hc0 & ->).
  rewrite Hc in Hc0. inversion Hc0; subst lat0 lon0.
  exists avg.
  eapply eq_trans.
  { eapply (render_analysis_page_ok E session _ _ "Urban" _ u r _ _ _ lat lon
              [ Dashboard.st_metric "🌡️ Avg. Surface Temperature"
                  (JStr (PyFloat.format_f 2 avg +:+ "°C"));
                Dashboard.st_info "🛰️ Data Source: Landsat 9 Satellite" ]).
    - reflexivity.
    - exact Hb.
    - exact Hm.
    - exact Hbody.
    - reflexivity.
    - reflexivity.
    - reflexivity.
    - reflexivity.
    - reflexivity.
    - exact Hvlat.
    - exact Hvlon.
    - intros v. now apply metrics_heat_map_shows. }
  reflexivity.
Qed.

Lemma heat_page_renders_witness :
  exists avg_temp : float,
    Dashboard.render_analysis_page
      (Dashboard.make_env
         (Dashboard.always_replies 200 "OK"
            (inr (JDict [ ("city", JStr "London");
                          ("location",
                           JDict [("lat", JNum 51.5072); ("lon", JNum (-0.1276))]);
                          ("avg_temp", JStr "29.66°C");
                          ("data_source", JStr "Landsat 9 Satellite") ]))))
      ∅ "🔥 Urban Heat Map" "heatmap"
      (Dashboard.metrics_heat_map
         (Dashboard.make_env
            (Dashboard.always_replies 200 "OK"
               (inr (JDict [ ("city", JStr "London");
                             ("location",
                              JDict [("lat", JNum 51.5072); ("lon", JNum (-0.1276))]);
                             ("avg_temp", JStr "29.66°C");
                             ("data_source", JStr "Landsat 9 Satellite") ])))))
      Dashboard.u0
    = (Dashboard.Done tt,
       Dashboard.UI
         ([] ++
          [ Dashboard.st_header "🔥 Urban Heat Map";
            Dashboard.st_spinner
              ("Analyzing Urban for " +:+ Dashboard.session_city ∅
               +:+ "... This involves processing satellite data and may take a moment.");
            Dashboard.st_columns [1; 2];
            Dashboard.in_column 0
              (Dashboard.st_markdown
                 ("### " +:+ PyStr.title (Dashboard.session_city ∅) +:+ " Analysis"));
            Dashboard.in_column 0
              (Dashboard.st_metric "🌡️ Avg. Surface Temperature"
                 (JStr (PyFloat.format_f 2 avg_temp +:+ "°C")));
            Dashboard.in_column 0
              (Dashboard.st_info "🛰️ Data Source: Landsat 9 Satellite");
            Dashboard.in_column 1
              (Dashboard.st_folium
                 (Dashboard.Map (JNum 51.5072, JNum (-0.1276)) 12 "CartoDB positron"
                    [Dashboard.Marker (JNum 51.5072, JNum (-0.1276))
                       (PyStr.title (Dashboard.session_city ∅) +:+ " Center")
                       "City Center"])
                 700 500) ])
         ([] ++
          [Dashboard.API_BASE_URL +:+ "/" +:+
           ("city/" +:+ Dashboard.session_city ∅ +:+ "/" +:+ "heatmap")])).
Proof.
  refine (heat_page_renders
            (make_env None service_down (Platform.run (landsat_only sample_scenes)))
            (Dashboard.make_env (Dashboard.always_replies 200 "OK" _))
            ∅ w0 w0 _ (JNum 51.5072) (JNum (-0.1276)) Dashboard.u0
            (Dashboard.Response 200 "OK" _ (inr _)) _ _ _ _ eq_refl _ eq_refl).
  - vm_compute. reflexivity.
  - vm_compute. reflexivity.
  - reflexivity.
  - reflexivity.
  - reflexivity.
Defined.

(** X14: the vegetation page renders every successful reply of the
    vegetation endpoint: it shows the green cover, the NDVI and the data
    source, and a map pinned on the coordinates. *)
Theorem green_page_renders
    (S : Env) (E : Dashboard.Env) (session : gmap string string)
    (w w' : world) (payload lat lon : json) (u : Dashboard.ui) (r : Dashboard.response) :
  get_green_cover_real S (Dashboard.session_city session) w = (Ok payload, w') ->
  get_city_coords S (Dashboard.session_city session) w = (Ok (lat, lon), w') ->
  Dashboard.valid_coordinate E lat = true ->
  Dashboard.valid_coordinate E lon = true ->
  Dashboard.backend E
    (Dashboard.API_BASE_URL +:+ "/" +:+
     ("city/" +:+ Dashboard.session_city session +:+ "/" +:+ "greencover"))
  = Dashboard.GetReplies r ->
  Dashboard.http_error_msg r = None ->
  Dashboard.body r = inr payload ->
  exists avg_ndvi : float,
    Dashboard.render_analysis_page E session "🌳 Green Cover Analysis" "greencover"
      (Dashboard.metrics_green_cover E) u
    = (Dashboard.Done tt,
       Dashboard.UI
         (Dashboard.widgets u ++
          [ Dashboard.st_header "🌳 Green Cover Analysis";
            Dashboard.st_spinner
              ("Analyzing Green for " +:+ Dashboard.session_city session
               +:+ "... This involves processing satellite data and may take a moment.");
            Dashboard.st_columns [1; 2];
            Dashboard.in_column 0
              (Dashboard.st_markdown
                 ("### " +:+ PyStr.title (Dashboard.session_city session) +:+ " Analysis"));
            Dashboard.in_column 0
              (Dashboard.st_metric "🌳 Average Green Cover"
                 (JStr (PyFloat.format_f 2 ((avg_ndvi + 1) * 50) +:+ "%")));
            Dashboard.in_column 0
              (Dashboard.st_metric "Average NDVI" (JStr (PyFloat.format_f 4 avg_ndvi)));
            Dashboard.in_column 0
              (Dashboard.st_info "🛰️ Data Source: Sentinel-2 Satellite");
            Dashboard.in_column 1
              (Dashboard.st_folium
                 (Dashboard.Map (lat, lon) 12 "CartoDB positron"
                    [Dashboard.Marker (lat, lon)
                       (PyStr.title (Dashboard.session_city session) +:+ " Center")
                       "City Center"])
                 700 500) ])
         (Dashboard.requested u ++
          [Dashboard.API_BASE_URL +:+ "/" +:+
           ("city/" +:+ Dashboard.session_city session +:+ "/" +:+ "greencover")])).
Proof.
  intros Hp Hc Hvlat Hvlon Hb Hm Hbody.
  destruct (green_payload_shape S _ w w' payload Hp) as (lat0 & lon0 & avg & Hc0 & ->).
  rewrite Hc in Hc0. inversion Hc0; subst lat0 lon0.
  exists avg.
  eapply eq_trans.
  { eapply (render_analysis_page_ok E session _ _ "Green" _ u r _ _ _ lat lon
              [ Dashboard.st_metric "🌳 Average Green Cover"
                  (JStr (PyFloat.format_f 2 ((avg + 1) * 50) +:+ "%"));
                Dashboard.st_metric "Average NDVI" (JStr (PyFloat.format_f 4 avg));
                Dashboard.st_info "🛰️ Data Source: Sentinel-2 Satellite" ]).
    - reflexivity.
    - exact Hb.
    - exact Hm.
    - exact Hbody.
    - reflexivity.
    - reflexivity.
    - reflexivity.
    - reflexivity.
    - reflexivity.
    - exact Hvlat.
    - exact Hvlon.
    - intros v. now apply metrics_green_cover_shows. }
  reflexivity.
Qed.

Lemma green_page_renders_witness :
  fst (Dashboard.render_analysis_page (dash_ok mumbai_green_payload)
         {[ "city" := "mumbai" ]} "🌳 Green Cover Analysis" "greencover"
         (Dashboard.metrics_green_cover (dash_ok mumbai_green_payload))
         Dashboard.u0)
  = Dashboard.Done tt.
Proof.
  destruct (green_page_renders
              (make_env None service_down (platform_returns "NDVI" (Some 0.25%float)))
              (dash_ok mumbai_green_payload)
              {[ "city" := "mumbai" ]} w0 w0 mumbai_green_payload
              (JNum 19.0760) (JNum 72.8777) Dashboard.u0
              (Dashboard.Response 200 "OK"
                 "http://127.0.0.1:8000/city/mumbai/greencover"
                 (inr mumbai_green_payload)))
    as [avg H].
  - vm_compute. reflexivity.
  - vm_compute. reflexivity.
  - reflexivity.
  - reflexivity.
  - vm_compute. reflexivity.
  - reflexivity.
  - reflexivity.
  - rewrite H. reflexivity.
Defined.

Lemma flood_payload_shape (E : Env) (city : string) (w w' : world) (payload : json) :
  get_flood_risk E city w = (Ok payload, w') ->
  exists (lat lon : json) (w1 : world) (risk_score high_risk_zones avg_elevation : Z),
    get_city_coords E city w = (Ok (lat, lon), w1)
    /\ payload
       = JDict [ ("city", JStr (PyStr.title city));
                 ("location", JDict [("lat", lat); ("lon", lon)]);
                 ("risk_score", JStr (PyFloat.str_int risk_score +:+ "/100"));
                 ("high_risk_zones", JInt high_risk_zones);
                 ("avg_elevation", JStr (PyFloat.str_int avg_elevation +:+ "m")) ].
Proof.
  unfold get_flood_risk, bind.
  destruct (get_city_coords E city w) as [[[lat lon] | e] w1] eqn:Hc; [|discriminate].
  rewrite !random_randint_run. intros H; inversion H; subst.
  exists lat, lon, w1. eauto.
Qed.

Lemma air_payload_shape (E : Env) (city : string) (w w' : world) (payload : json) :
  get_air_quality E city w = (Ok payload, w') ->
  exists (lat lon : json) (w1 : world) (avg_aqi unhealthy_sensors : Z)
         (main_pollutant : string),
    get_city_coords E city w = (Ok (lat, lon), w1)
    /\ payload
       = JDict [ ("city", JStr (PyStr.title city));
                 ("location", JDict [("lat", lat); ("lon", lon)]);
                 ("avg_aqi", JInt avg_aqi);
                 ("unhealthy_sensors", JInt unhealthy_sensors);
                 ("main_pollutant", JStr main_pollutant) ].
Proof.
  unfold get_air_quality, bind.
  destruct (get_city_coords E city w) as [[[lat lon] | e] w1] eqn:Hc; [|discriminate].
  rewrite !random_randint_run, random_choice_run. intros H; inversion H; subst.
  exists lat, lon, w1. eauto 6.
Qed.

Lemma report_payload_shape (E : Env) (city : string) (w w' : world) (payload : json) :
  get_report_card E city w = (Ok payload, w') ->
  exists (lat lon : json) (overall_score : Z),
    payload
    = JDict [ ("city", JStr (PyStr.title city));
              ("location", JDict [("lat", lat); ("lon", lon)]);
              ("overall_score", JInt overall_score);
              ("summary", JStr "This is a simulated summary.");
              ("grades",
               JDict [ ("Air Quality", JDict [("grade", JStr "C+")]);
                       ("Green Cover", JDict [("grade", JStr "A-")]) ]) ].
Proof.
  unfold get_report_card, bind.
  destruct (get_city_coords E city w) as [[[lat lon] | e] w1] eqn:Hc; [|discriminate].
  rewrite !random_randint_run. intros H; inversion H; subst. eauto.
Qed.

Lemma metrics_flood_risk_shows
    (E : Dashboard.Env) (data : json) (risk_score avg_elevation : string)
    (high_risk_zones : Z) (u : Dashboard.ui) :
  getitem_key data "risk_score" = Ok (JStr risk_score) ->
  getitem_key data "high_risk_zones" = Ok (JInt high_risk_zones) ->
  getitem_key data "avg_elevation" = Ok (JStr avg_elevation) ->
  Dashboard.metrics_flood_risk E data u
  = (Dashboard.Done tt,
     Dashboard.UI
       (Dashboard.widgets u ++
        [ Dashboard.st_metric "💧 Vulnerability Score" (JStr risk_score);
          Dashboard.st_metric "High Risk Zones" (JInt high_risk_zones);
          Dashboard.st_metric "Avg. Elevation" (JStr avg_elevation);
          Dashboard.st_warning "Data on this page is simulated." ])
       (Dashboard.requested u)).
Proof.
  intros H1 H2 H3.
  unfold Dashboard.metrics_flood_risk, Dashboard.bind, Dashboard.subscript.
  rewrite H1. cbn. rewrite H2. cbn. rewrite H3. dash_finish.
Qed.

Lemma metrics_air_quality_shows
    (E : Dashboard.Env) (data : json) (avg_aqi unhealthy_sensors : Z)
    (main_pollutant : string) (u : Dashboard.ui) :
  getitem_key data "avg_aqi" = Ok (JInt avg_aqi) ->
  getitem_key data "unhealthy_sensors" = Ok (JInt unhealthy_sensors) ->
  getitem_key data "main_pollutant" = Ok (JStr main_pollutant) ->
  Dashboard.metrics_air_quality E data u
  = (Dashboard.Done tt,
     Dashboard.UI
       (Dashboard.widgets u ++
        [ Dashboard.st_metric "💨 Average AQI" (JInt avg_aqi);
          Dashboard.st_metric "Unhealthy Sensors (>100)" (JInt unhealthy_sensors);
          Dashboard.st_metric "Main Pollutant" (JStr main_pollutant);
          Dashboard.st_warning "Data on this page is simulated." ])
       (Dashboard.requested u)).
Proof.
  intros H1 H2 H3.
  unfold Dashboard.metrics_air_quality, Dashboard.bind, Dashboard.subscript.
  rewrite H1. cbn. rewrite H2. cbn. rewrite H3. dash_finish.
Qed.

(** X15: the flood-risk page renders every successful reply of the
    flood-risk endpoint: score, zones, elevation, the note that the data is
    simulated, and the map. *)
Theorem flood_page_renders
    (S : Env) (E : Dashboard.Env) (session : gmap string string)
    (w w1 w' : world) (payload lat lon : json) (u : Dashboard.ui)
    (r : Dashboard.response) :
  get_flood_risk S (Dashboard.session_city session) w = (Ok payload, w') ->
  get_city_coords S (Dashboard.session_city session) w = (Ok (lat, lon), w1) ->
  Dashboard.valid_coordinate E lat = true ->
  Dashboard.valid_coordinate E lon = true ->
  Dashboard.backend E
    (Dashboard.API_BASE_URL +:+ "/" +:+
     ("city/" +:+ Dashboard.session_city session +:+ "/" +:+ "floodrisk"))
  = Dashboard.GetReplies r ->
  Dashboard.http_error_msg r = None ->
  Dashboard.body r = inr payload ->
  exists risk_score high_risk_zones avg_elevation : Z,
    Dashboard.render_analysis_page E session "💧 Flood Risk Analysis" "floodrisk"
      (Dashboard.metrics_flood_risk E) u
    = (Dashboard.Done tt,
       Dashboard.UI
         (Dashboard.widgets u ++
          [ Dashboard.st_header "💧 Flood Risk Analysis";
            Dashboard.st_spinner
              ("Analyzing Flood for " +:+ Dashboard.session_city session
               +:+ "... This involves processing satellite data and may take a moment.");
            Dashboard.st_columns [1; 2];
            Dashboard.in_column 0
              (Dashboard.st_markdown
                 ("### " +:+ PyStr.title (Dashboard.session_city session) +:+ " Analysis"));
            Dashboard.in_column 0
              (Dashboard.st_metric "💧 Vulnerability Score"
                 (JStr (PyFloat.str_int risk_score +:+ "/100")));
            Dashboard.in_column 0
              (Dashboard.st_metric "High Risk Zones" (JInt high_risk_zones));
            Dashboard.in_column 0
              (Dashboard.st_metric "Avg. Elevation"
                 (JStr (PyFloat.str_int avg_elevation +:+ "m")));
            Dashboard.in_column 0
              (Dashboard.st_warning "Data on this page is simulated.");
            Dashboard.in_column 1
              (Dashboard.st_folium
                 (Dashboard.Map (lat, lon) 12 "CartoDB positron"
                    [Dashboard.Marker (lat, lon)
                       (PyStr.title (Dashboard.session_city session) +:+ " Center")
                       "City Center"])
                 700 500) ])
         (Dashboard.requested u ++
          [Dashboard.API_BASE_URL +:+ "/" +:+
           ("city/" +:+ Dashboard.session_city session +:+ "/" +:+ "floodrisk")])).
Proof.
  intros Hp Hc Hvlat Hvlon Hb Hm Hbody.
  destruct (flood_payload_shape S _ w w' payload Hp)
    as (lat0 & lon0 & w2 & risk & zones & elev & Hc0 & ->).
  rewrite Hc in Hc0. inversion Hc0; subst lat0 lon0 w2.
  exists risk, zones, elev.
  eapply eq_trans.
  { eapply (render_analysis_page_ok E session _ _ "Flood" _ u r _ _ _ lat lon
              [ Dashboard.st_metric "💧 Vulnerability Score"
                  (JStr (PyFloat.str_int risk +:+ "/100"));
                Dashboard.st_metric "High Risk Zones" (JInt zones);
                Dashboard.st_metric "Avg. Elevation"
                  (JStr (PyFloat.str_int elev +:+ "m"));
                Dashboard.st_warning "Data on this page is simulated." ]).
    - reflexivity.
    - exact Hb.
    - exact Hm.
    - exact Hbody.
    - reflexivity.
    - reflexivity.
    - reflexivity.
    - reflexivity.
    - reflexivity.
    - exact Hvlat.
    - exact Hvlon.
    - intros v. now apply metrics_flood_risk_shows. }
  reflexivity.
Qed.

(** X16: the air-quality page renders every successful reply of the
    air-quality endpoint: AQI, unhealthy sensors, main pollutant, the note
    that the data is simulated, and the map. *)
Theorem air_page_renders
    (S : Env) (E : Dashboard.Env) (session : gmap string string)
    (w w1 w' : world) (payload lat lon : json) (u : Dashboard.ui)
    (r : Dashboard.response) :
  get_air_quality S (Dashboard.session_city session) w = (Ok payload, w') ->
  get_city_coords S (Dashboard.session_city session) w = (Ok (lat, lon), w1) ->
  Dashboard.valid_coordinate E lat = true ->
  Dashboard.valid_coordinate E lon = true ->
  Dashboard.backend E
    (Dashboard.API_BASE_URL +:+ "/" +:+
     ("city/" +:+ Dashboard.session_city session +:+ "/" +:+ "airquality"))
  = Dashboard.GetReplies r ->
  Dashboard.http_error_msg r = None ->
  Dashboard.body r = inr payload ->
  exists (avg_aqi unhealthy_sensors : Z) (main_pollutant : string),
    Dashboard.render_analysis_page E session "💨 Air Quality Analysis" "airquality"
      (Dashboard.metrics_air_quality E) u
    = (Dashboard.Done tt,
       Dashboard.UI
         (Dashboard.widgets u ++
          [ Dashboard.st_header "💨 Air Quality Analysis";
            Dashboard.st_spinner
              ("Analyzing Air for " +:+ Dashboard.session_city session
               +:+ "... This involves processing satellite data and may take a moment.");
            Dashboard.st_columns [1; 2];
            Dashboard.in_column 0
              (Dashboard.st_markdown
                 ("### " +:+ PyStr.title (Dashboard.session_city session) +:+ " Analysis"));
            Dashboard.in_column 0 (Dashboard.st_metric "💨 Average AQI" (JInt avg_aqi));
            Dashboard.in_column 0
              (Dashboard.st_metric "Unhealthy Sensors (>100)" (JInt unhealthy_sensors));
            Dashboard.in_column 0
              (Dashboard.st_metric "Main Pollutant" (JStr main_pollutant));
            Dashboard.in_column 0
              (Dashboard.st_warning "Data on this page is simulated.");
            Dashboard.in_column 1
              (Dashboard.st_folium
                 (Dashboard.Map (lat, lon) 12 "CartoDB positron"
                    [Dashboard.Marker (lat, lon)
                       (PyStr.title (Dashboard.session_city session) +:+ " Center")
                       "City Center"])
                 700 500) ])
         (Dashboard.requested u ++
          [Dashboard.API_BASE_URL +:+ "/" +:+
           ("city/" +:+ Dashboard.session_city session +:+ "/" +:+ "airquality")])).
Proof.
  intros Hp Hc Hvlat Hvlon Hb Hm Hbody.
  destruct (air_payload_shape S _ w w' payload Hp)
    as (lat0 & lon0 & w2 & aqi & sensors & pollutant & Hc0 & ->).
  rewrite Hc in Hc0. inversion Hc0; subst lat0 lon0 w2.
  exists aqi, sensors, pollutant.
  eapply eq_trans.
  { eapply (render_analysis_page_ok E session _ _ "Air" _ u r _ _ _ lat lon
              [ Dashboard.st_metric "💨 Average AQI" (JInt aqi);
                Dashboard.st_metric "Unhealthy Sensors (>100)" (JInt sensors);
                Dashboard.st_metric "Main Pollutant" (JStr pollutant);
                Dashboard.st_warning "Data on this page is simulated." ]).
    - reflexivity.
    - exact Hb.
    - exact Hm.
    - exact Hbody.
    - reflexivity.
    - reflexivity.
    - reflexivity.
    - reflexivity.
    - reflexivity.
    - exact Hvlat.
    - exact Hvlon.
    - intros v. now apply metrics_air_quality_shows. }
  reflexivity.
Qed.

Lemma flood_page_renders_witness :
  fst (Dashboard.render_analysis_page (dash_ok mumbai_flood_payload)
         {[ "city" := "Mumbai" ]} "💧 Flood Risk Analysis" "floodrisk"
         (Dashboard.metrics_flood_risk (dash_ok mumbai_flood_payload))
         Dashboard.u0)
  = Dashboard.Done tt.
Proof.
  destruct (flood_page_renders sample_service (dash_ok mumbai_flood_payload)
              {[ "city" := "Mumbai" ]} w0 w0 (World [] 3) mumbai_flood_payload
              (JNum 19.0760) (JNum 72.8777) Dashboard.u0
              (Dashboard.Response 200 "OK"
                 "http://127.0.0.1:8000/city/Mumbai/floodrisk"
                 (inr mumbai_flood_payload)))
    as (risk & zones & elev & H).
  - vm_compute. reflexivity.
  - vm_compute. reflexivity.
  - reflexivity.
  - reflexivity.
  - vm_compute. reflexivity.
  - reflexivity.
  - reflexivity.
  - rewrite H. reflexivity.
Defined.

Lemma air_page_renders_witness :
  fst (Dashboard.render_analysis_page (dash_ok london_air_payload)
         ∅ "💨 Air Quality Analysis" "airquality"
         (Dashboard.metrics_air_quality (dash_ok london_air_payload))
         Dashboard.u0)
  = Dashboard.Done tt.
Proof.
  destruct (air_page_renders sample_service (dash_ok london_air_payload)
              ∅ w0 w0 (World [] 3) london_air_payload
              (JNum 51.5072) (JNum (-0.1276)) Dashboard.u0
              (Dashboard.Response 200 "OK"
                 "http://127.0.0.1:8000/city/London/airquality"
                 (inr london_air_payload)))
    as (aqi & sensors & pollutant & H).
  - vm_compute. reflexivity.
  - vm_compute. reflexivity.
  - reflexivity.
  - reflexivity.
  - vm_compute. reflexivity.
  - reflexivity.
  - reflexivity.
  - rewrite H. reflexivity.
Defined.

(** X17: the report-card page renders every successful reply of the
    report-card endpoint: the title line with the score out of 100, the
    summary, and the two grades side by side; it issues one request. *)
Theorem report_card_page_renders
    (S : Env) (E : Dashboard.Env) (session : gmap string string)
    (w w' : world) (payload : json) (u : Dashboard.ui) (r : Dashboard.response) :
  get_report_card S (Dashboard.session_city session) w = (Ok payload, w') ->
  Dashboard.backend E
    (Dashboard.API_BASE_URL +:+ "/" +:+
     ("city/" +:+ Dashboard.session_city session +:+ "/reportcard"))
  = Dashboard.GetReplies r ->
  Dashboard.http_error_msg r = None ->
  Dashboard.body r = inr payload ->
  exists overall_score : Z,
    60 <= overall_score <= 85
    /\ Dashboard.render_report_card E session u
       = (Dashboard.Done tt,
          Dashboard.UI
            (Dashboard.widgets u ++
             [ Dashboard.st_header "📈 Comprehensive Report Card";
               Dashboard.st_warning "Data on this page is simulated.";
               Dashboard.st_markdown
                 ("## " +:+ PyStr.title (Dashboard.session_city session)
                  +:+ " | Overall Score: **" +:+ PyFloat.str_int overall_score
                  +:+ "/100**");
               Dashboard.st_info "**Executive Summary:** This is a simulated summary.";
               Dashboard.st_columns [1; 1];
               Dashboard.in_column 0 (Dashboard.st_metric "Air Quality" (JStr "C+"));
               Dashboard.in_column 1 (Dashboard.st_metric "Green Cover" (JStr "A-")) ])
            (Dashboard.requested u ++
             [Dashboard.API_BASE_URL +:+ "/" +:+
              ("city/" +:+ Dashboard.session_city session +:+ "/reportcard")])).
Proof.
  intros Hp Hb Hm Hbody.
  assert (Hshape : exists lat lon score,
             60 <= score <= 85
             /\ payload
                = JDict [ ("city", JStr (PyStr.title (Dashboard.session_city session)));
                          ("location", JDict [("lat", lat); ("lon", lon)]);
                          ("overall_score", JInt score);
                          ("summary", JStr "This is a simulated summary.");
                          ("grades",
                           JDict [ ("Air Quality", JDict [("grade", JStr "C+")]);
                                   ("Green Cover", JDict [("grade", JStr "A-")]) ]) ]).
  { revert Hp. unfold get_report_card, bind.
    destruct (get_city_coords S (Dashboard.session_city session) w)
      as [[[lat lon] | e] w1]; [|discriminate].
    rewrite !random_randint_run. intros H; inversion H; subst.
    exists lat, lon. eexists. split; [|reflexivity]. apply randint_in_range. lia. }
  destruct Hshape as (lat & lon & score & Hrange & ->).
  exists score. split; [exact Hrange|].
  unfold Dashboard.render_report_card, Dashboard.bind, Dashboard.emit.
  cbn [Dashboard.widgets Dashboard.requested].
  rewrite (get_api_data_success E _ _ r _ Hb Hm Hbody).
  cbn. rewrite <- ?app_assoc. reflexivity.
Qed.

Lemma report_card_page_renders_witness :
  fst (Dashboard.render_report_card (dash_ok london_report_payload) ∅ Dashboard.u0)
  = Dashboard.Done tt.
Proof.
  destruct (report_card_page_renders sample_service (dash_ok london_report_payload)
              ∅ w0 (World [] 1) london_report_payload Dashboard.u0
              (Dashboard.Response 200 "OK"
                 "http://127.0.0.1:8000/city/London/reportcard"
                 (inr london_report_payload)))
    as (score & _ & H).
  - vm_compute. reflexivity.
  - vm_compute. reflexivity.
  - reflexivity.
  - reflexivity.
  - rewrite H. reflexivity.
Defined.

(** X18: the simulator page renders the reply of the simulation endpoint
    for every city: it always shows a projected temperature change of
    -2.5°C and a projected AQI change of -20, after asking for the
    intervention "Parks" at scale "Medium". *)
Theorem simulator_page_renders
    (S : Env) (E : Dashboard.Env) (session : gmap string string)
    (w w' : world) (payload : json) (u : Dashboard.ui) (r : Dashboard.response) :
  get_simulation S (Dashboard.session_city session) "Parks" "Medium" w = (Ok payload, w') ->
  Dashboard.backend E
    (Dashboard.API_BASE_URL +:+ "/" +:+
     ("city/" +:+ Dashboard.session_city session
      +:+ "/simulate?intervention=Parks&scale=Medium"))
  = Dashboard.GetReplies r ->
  Dashboard.http_error_msg r = None ->
  Dashboard.body r = inr payload ->
  Dashboard.render_simulator E session u
  = (Dashboard.Done tt,
     Dashboard.UI
       (Dashboard.widgets u ++
        [ Dashboard.st_header "🛠️ Urban Planning Simulator";
          Dashboard.st_warning "Data on this page is simulated.";
          Dashboard.st_metric "Projected Temp. Change" (JStr "-2.5°C");
          Dashboard.st_metric "Projected AQI Change" (JInt (-20)) ])
       (Dashboard.requested u ++
        [Dashboard.API_BASE_URL +:+ "/" +:+
         ("city/" +:+ Dashboard.session_city session
          +:+ "/simulate?intervention=Parks&scale=Medium")])).
Proof.
  intros Hp Hb Hm Hbody.
  unfold get_simulation, ret in Hp. inversion Hp; subst payload w'.
  unfold Dashboard.render_simulator, Dashboard.bind, Dashboard.emit.
  cbn [Dashboard.widgets Dashboard.requested].
  rewrite (get_api_data_success E _ _ r _ Hb Hm Hbody).
  dash_finish.
Qed.

Lemma simulator_page_renders_witness :
  Dashboard.render_simulator (dash_ok simulation_payload) {[ "city" := "Atlantis" ]}
    Dashboard.u0
  = (Dashboard.Done tt,
     Dashboard.UI
       [ Dashboard.st_header "🛠️ Urban Planning Simulator";
         Dashboard.st_warning "Data on this page is simulated.";
         Dashboard.st_metric "Projected Temp. Change" (JStr "-2.5°C");
         Dashboard.st_metric "Projected AQI Change" (JInt (-20)) ]
       ["http://127.0.0.1:8000/city/Atlantis/simulate?intervention=Parks&scale=Medium"]).
Proof.
  refine (simulator_page_renders sample_service (dash_ok simulation_payload)
            {[ "city" := "Atlantis" ]} w0 w0 simulation_payload Dashboard.u0
            (Dashboard.Response 200 "OK"
               "http://127.0.0.1:8000/city/Atlantis/simulate?intervention=Parks&scale=Medium"
               (inr simulation_payload)) _ _ _ _).
  - reflexivity.
  - vm_compute. reflexivity.
  - reflexivity.
  - reflexivity.
Defined.

(** X19: when the service answers the page's request with a 4xx or 5xx
    status, an analysis page shows its header, the spinner and the error
    banner, and nothing else: no metric, no map, and no exception. *)
Theorem analysis_page_on_error
    (E : Dashboard.Env) (session : gmap string string)
    (page_title endpoint word : string) (render_metrics_func : json -> Dashboard.Run unit)
    (u : Dashboard.ui) (r : Dashboard.response) :
  nth_error (Dashboard.split_space page_title) 1 = Some word ->
  Dashboard.backend E
    (Dashboard.API_BASE_URL +:+ "/" +:+
     ("city/" +:+ Dashboard.session_city session +:+ "/" +:+ endpoint))
  = Dashboard.GetReplies r ->
  400 <= Dashboard.status_code r < 600 ->
  exists msg,
    Dashboard.http_error_msg r = Some msg
    /\ Dashboard.render_analysis_page E session page_title endpoint render_metrics_func u
       = (Dashboard.Done tt,
          Dashboard.UI
            (Dashboard.widgets u ++
             [ Dashboard.st_header page_title;
               Dashboard.st_spinner
                 ("Analyzing " +:+ word +:+ " for " +:+ Dashboard.session_city session
                  +:+ "... This involves processing satellite data and may take a moment.");
               Dashboard.st_error ("API Error: " +:+ msg) ])
            (Dashboard.requested u ++
             [Dashboard.API_BASE_URL +:+ "/" +:+
              ("city/" +:+ Dashboard.session_city session +:+ "/" +:+ endpoint)])).
Proof.
  intros Hw Hb Hs.
  pose proof (http_error_msg_error_status r Hs) as Hm.
  eexists. split; [exact Hm|].
  unfold Dashboard.render_analysis_page.
  unfold Dashboard.bind at 1. cbn [Dashboard.emit].
  rewrite Hw.
  unfold Dashboard.bind at 1. cbn [Dashboard.ret].
  unfold Dashboard.bind at 1. cbn [Dashboard.emit].
  unfold Dashboard.bind at 1.
  rewrite (get_api_data_http_error E _ _ r _ Hb Hm).
  cbn. rewrite <- ?app_assoc. reflexivity.
Qed.

Lemma analysis_page_on_error_witness :
  exists msg,
    Dashboard.http_error_msg
      (Dashboard.Response 503 "Service Unavailable"
         "http://127.0.0.1:8000/city/Atlantis/heatmap"
         (inr (JDict [("detail", JStr "Geocoding service is unavailable.")])))
    = Some msg
    /\ Dashboard.render_analysis_page
         (Dashboard.make_env
            (Dashboard.always_replies 503 "Service Unavailable"
               (inr (JDict [("detail", JStr "Geocoding service is unavailable.")]))))
         {[ "city" := "Atlantis" ]} "🔥 Urban Heat Map" "heatmap"
         (Dashboard.metrics_heat_map
            (Dashboard.make_env
               (Dashboard.always_replies 503 "Service Unavailable"
                  (inr (JDict [("detail", JStr "Geocoding service is unavailable.")])))))
         Dashboard.u0
       = (Dashboard.Done tt,
          Dashboard.UI
            ([] ++
             [ Dashboard.st_header "🔥 Urban Heat Map";
               Dashboard.st_spinner
                 ("Analyzing " +:+ "Urban" +:+ " for "
                  +:+ Dashboard.session_city {[ "city" := "Atlantis" ]}
                  +:+ "... This involves processing satellite data and may take a moment.");
               Dashboard.st_error ("API Error: " +:+ msg) ])
            ([] ++
             [Dashboard.API_BASE_URL +:+ "/" +:+
              ("city/" +:+ Dashboard.session_city {[ "city" := "Atlantis" ]}
               +:+ "/" +:+ "heatmap")])).
Proof.
  refine (analysis_page_on_error
            (Dashboard.make_env
               (Dashboard.always_replies 503 "Service Unavailable"
                  (inr (JDict [("detail", JStr "Geocoding service is unavailable.")]))))
            {[ "city" := "Atlantis" ]} "🔥 Urban Heat Map" "heatmap" "Urban" _
            Dashboard.u0
            (Dashboard.Response 503 "Service Unavailable"
               "http://127.0.0.1:8000/city/Atlantis/heatmap"
               (inr (JDict [("detail", JStr "Geocoding service is unavailable.")])))
            _ _ _).
  - reflexivity.
  - vm_compute. reflexivity.
  - cbn. lia.
Defined.

(** * The heat endpoint end to end *)

(** X20: on the reference platform the heat endpoint reports the mean,
    over the region, of the Celsius values of the first image of the
    sorted collection (the most recent qualifying scene) and of no other
    scene; when that scene has no unmasked sample in the region the
    endpoint answers 404 "Could not calculate temperature." *)
Theorem heat_map_reports_latest_scene
    (S : Env) (cat : Platform.catalog) (city : string) (w w' : world)
    (lat lon : json) (img : Platform.image) (px : list float) :
  ee_getInfo S = Platform.run cat ->
  get_city_coords S city w = (Ok (lat, lon), w') ->
  Platform.first_image cat (heat_collection (area_of_interest lat lon)) = Some img ->
  assoc_get "ST_B10" (Platform.samples img (area_of_interest lat lon) 30) = Some px ->
  get_heat_map_real S city w
  = ( match Platform.mean
              (map (fun x => (x * 0.00341802 + 149.0 - 273.15)%float) px) with
      | Some avg_temp =>
          Ok (JDict
                [ ("city", JStr (PyStr.title city));
                  ("location", JDict [("lat", lat); ("lon", lon)]);
                  ("avg_temp", JStr (PyFloat.format_f 2 avg_temp +:+ "°C"));
                  ("data_source", JStr "Landsat 9 Satellite") ])
      | None => Raise (HTTPException 404 "Could not calculate temperature.")
      end, w').
Proof.
  intros HE Hc Hf Hb.
  rewrite (get_heat_map_real_resolved S city w w' lat lon Hc), HE.
  unfold Platform.run, heat_query.
  cbn [EE.rr_image EE.rr_geometry EE.rr_scale Platform.eval_image].
  rewrite (eval_scale_thermal cat _ 30 _ img px Hf Hb).
  cbn [map fst snd]. rewrite stats_get_single. reflexivity.
Qed.

Lemma heat_map_reports_latest_scene_witness :
  get_heat_map_real sample_service "Tokyo" w0
  = ( match Platform.mean
              (map (fun x => (x * 0.00341802 + 149.0 - 273.15)%float)
                   [40000%float; 50000%float]) with
      | Some avg_temp =>
          Ok (JDict
                [ ("city", JStr (PyStr.title "Tokyo"));
                  ("location", JDict [("lat", JNum 35.6762); ("lon", JNum 139.6503)]);
                  ("avg_temp", JStr (PyFloat.format_f 2 avg_temp +:+ "°C"));
                  ("data_source", JStr "Landsat 9 Satellite") ])
      | None => Raise (HTTPException 404 "Could not calculate temperature.")
      end, w0).
Proof.
  refine (heat_map_reports_latest_scene sample_service (landsat_only sample_scenes)
            "Tokyo" w0 w0 (JNum 35.6762) (JNum 139.6503)
            (scene 1692000000000 3 [40000%float; 50000%float])
            [40000%float; 50000%float] eq_refl _ _ _).
  - vm_compute. reflexivity.
  - vm_compute. reflexivity.
  - reflexivity.
Defined.

(** * What the simulated endpoints do not depend on *)

(** X21: the simulated endpoints never consult Earth Engine: two
    environments that differ only in the platform give the same replies
    and the same final worlds, so a platform that fails on every call
    leaves them unaffected. *)
Theorem simulated_endpoints_ignore_platform
    (key : option string) (service : string -> get_outcome)
    (platform platform' : EE.reduceRegion -> EE.outcome)
    (floats : N -> float) (bits : N -> Z)
    (city intervention scale : string) (w : world) :
  let S := {| OPENWEATHER_API_KEY := key; net := service; ee_getInfo := platform;
              rand_float := floats; rand_bits := bits |} in
  let S' := {| OPENWEATHER_API_KEY := key; net := service; ee_getInfo := platform';
               rand_float := floats; rand_bits := bits |} in
  get_city_coords S city w = get_city_coords S' city w
  /\ get_city_overview S city w = get_city_overview S' city w
  /\ get_flood_risk S city w = get_flood_risk S' city w
  /\ get_air_quality S city w = get_air_quality S' city w
  /\ get_report_card S city w = get_report_card S' city w
  /\ get_simulation S city intervention scale w
     = get_simulation S' city intervention scale w.
Proof.
  intros S S'.
  assert (Hc : get_city_coords S city w = get_city_coords S' city w) by reflexivity.
  unfold get_city_overview, get_flood_risk, get_air_quality, get_report_card, bind.
  rewrite <- Hc.
  repeat split.
Qed.
